(** * simulate_nmea.py: NMEA GGA parsing and track accumulation

    A shallow embedding of [src/simulate_nmea.py].  The script reads NMEA
    sentences, keeps the GGA fixes in four parallel global lists and plots
    them.  Python exceptions are explicit results, the four global lists are
    an explicit store, and the serial port is a finite list of read events. *)

From Stdlib Require Import String Ascii List ZArith QArith Bool Arith Lia.
From Stdlib Require Import DecimalString Qabs.
Import ListNotations.
Close Scope Q_scope.
Open Scope string_scope.
Open Scope nat_scope.

(** ** Python base layer *)

Module Py.

(** Exceptions the script can meet.  [KeyboardInterrupt] is the only one
    that is not a subclass of [Exception]. *)
Inductive Exn : Type :=
| AttributeError
| ValueError
| TypeError
| ParseError
| ChecksumError
| SentenceTypeError
| IndexError
| OtherException
| KeyboardInterrupt.

Definition is_Exception (e : Exn) : bool :=
  match e with
  | KeyboardInterrupt => false
  | _ => true
  end.

(** Outcome of evaluating a Python expression or call. *)
Inductive Result (A : Type) : Type :=
| Returns (a : A)
| Raises (e : Exn).
Arguments Returns {A} a.
Arguments Raises {A} e.

Definition bind {A B} (r : Result A) (k : A -> Result B) : Result B :=
  match r with
  | Returns a => k a
  | Raises e => Raises e
  end.

(** Characters are bytes; the text the script handles is ASCII (the
    serial reader drops every other byte). *)
Definition code (c : ascii) : nat := nat_of_ascii c.

Definition is_digit (c : ascii) : bool :=
  (48 <=? code c) && (code c <=? 57).

Definition is_upper (c : ascii) : bool :=
  (65 <=? code c) && (code c <=? 90).

Definition is_lower (c : ascii) : bool :=
  (97 <=? code c) && (code c <=? 122).

(** [str.isspace] on ASCII: tab, LF, VT, FF, CR, FS, GS, RS, US, space. *)
Definition is_space (c : ascii) : bool :=
  ((9 <=? code c) && (code c <=? 13))
  || ((28 <=? code c) && (code c <=? 32)).

Definition upper_char (c : ascii) : ascii :=
  if is_lower c then ascii_of_nat (code c - 32) else c.

Fixpoint upper (s : string) : string :=
  match s with
  | EmptyString => EmptyString
  | String c r => String (upper_char c) (upper r)
  end.

Fixpoint lstrip (s : string) : string :=
  match s with
  | EmptyString => EmptyString
  | String c r => if is_space c then lstrip r else s
  end.

Fixpoint all_space (s : string) : bool :=
  match s with
  | EmptyString => true
  | String c r => is_space c && all_space r
  end.

Fixpoint rstrip (s : string) : string :=
  match s with
  | EmptyString => EmptyString
  | String c r => if all_space s then EmptyString else String c (rstrip r)
  end.

(** [s.strip()] *)
Definition strip (s : string) : string := rstrip (lstrip s).

(** [bytes.decode("ascii", errors="ignore")]: bytes above 127 are dropped. *)
Fixpoint decode_ascii_ignore (b : string) : string :=
  match b with
  | EmptyString => EmptyString
  | String c r =>
      if code c <? 128 then String c (decode_ascii_ignore r)
      else decode_ascii_ignore r
  end.

(** [s.split(sep)] for a one-character separator. *)
Fixpoint split (sep : ascii) (s : string) : list string :=
  match s with
  | EmptyString => [EmptyString]
  | String c r =>
      if Ascii.eqb c sep then EmptyString :: split sep r
      else match split sep r with
           | [] => [String c EmptyString]
           | h :: t => String c h :: t
           end
  end.

(** [s[i:j]] for [0 <= i <= j]. *)
Definition slice (i j : nat) (s : string) : string := substring i (j - i) s.

(** [s[i:]] *)
Fixpoint drop (i : nat) (s : string) : string :=
  match i, s with
  | O, _ => s
  | S k, EmptyString => EmptyString
  | S k, String _ r => drop k r
  end.

(** Python floats.  A finite float is the exact rational its decimal text
    denotes: binary64 rounding and overflow are not part of the model. *)
Inductive float : Type :=
| Finite (q : Q)
| Inf (negative : bool)
| NaN.

Definition digit_val (c : ascii) : Z := Z.of_nat (code c - 48).

(** A run of digits in which single underscores may separate digits:
    [digit (["_"] digit)*].  Returns the value, the number of digits and
    the rest of the text. *)
Fixpoint digitpart_tail (s : string) (acc : Z) (n : nat) : Z * nat * string :=
  match s with
  | String c r =>
      if is_digit c then digitpart_tail r (10 * acc + digit_val c) (S n)
      else if Ascii.eqb c "_" then
        match r with
        | String d r' =>
            if is_digit d
            then digitpart_tail r' (10 * acc + digit_val d) (S n)
            else (acc, n, s)
        | EmptyString => (acc, n, s)
        end
      else (acc, n, s)
  | EmptyString => (acc, n, s)
  end.

Definition digitpart (s : string) : option (Z * nat * string) :=
  match s with
  | String c r =>
      if is_digit c then Some (digitpart_tail r (digit_val c) 1) else None
  | EmptyString => None
  end.

Definition take_sign (s : string) : bool * string :=
  match s with
  | String "-" r => (true, r)
  | String "+" r => (false, r)
  | _ => (false, s)
  end.

(** Optional exponent [("e"|"E") ["+"|"-"] digitpart]. *)
Definition exponent (s : string) : option (Z * string) :=
  match s with
  | String c r =>
      if Ascii.eqb (upper_char c) "E" then
        let '(neg, r1) := take_sign r in
        match digitpart r1 with
        | Some (v, _, rest) => Some (if neg then (- v)%Z else v, rest)
        | None => None
        end
      else Some (0%Z, s)
  | EmptyString => Some (0%Z, s)
  end.

(** [m * 10^e] as a rational. *)
Definition scale10 (m e : Z) : Q :=
  match e with
  | Z0 => inject_Z m
  | Zpos p => inject_Z (m * Z.pow_pos 10 p)
  | Zneg p => Qmake m (Pos.pow 10 p)
  end.

(** [number ::= [digitpart] "." digitpart | digitpart ["."]], then the
    exponent; the whole text must be consumed. *)
Definition floatnumber (s : string) : option Q :=
  let finish (m : Z) (k : nat) (rest : string) : option Q :=
    match exponent rest with
    | Some (e, EmptyString) => Some (scale10 m (e - Z.of_nat k))
    | _ => None
    end in
  match digitpart s with
  | Some (i, _, String "." r) =>
      match digitpart r with
      | Some (f, k, rest) => finish (i * 10 ^ Z.of_nat k + f)%Z k rest
      | None => finish i 0 r
      end
  | Some (i, _, rest) => finish i 0 rest
  | None =>
      match s with
      | String "." r =>
          match digitpart r with
          | Some (f, k, rest) => finish f k rest
          | None => None
          end
      | _ => None
      end
  end.

(** [float(s)] on a string: surrounding whitespace is ignored, then
    [[sign] (floatnumber | "inf" | "infinity" | "nan")], letters in
    either case. *)
Definition float_of_string (s : string) : Result float :=
  let '(neg, body) := take_sign (strip s) in
  let u := upper body in
  if String.eqb u "INF" || String.eqb u "INFINITY" then Returns (Inf neg)
  else if String.eqb u "NAN" then Returns NaN
  else match floatnumber body with
       | Some q => Returns (Finite (if neg then Qopp q else q))
       | None => Raises ValueError
       end.

(** [int(s)] on a string, base 10: whitespace, sign, digits with single
    underscores. *)
Definition int_of_string (s : string) : Result Z :=
  let '(neg, body) := take_sign (strip s) in
  match digitpart body with
  | Some (v, _, EmptyString) => Returns (if neg then (- v)%Z else v)
  | _ => Raises ValueError
  end.

(** [x in l] for a string and a tuple or dict of strings. *)
Definition mem (x : string) (l : list string) : bool :=
  existsb (String.eqb x) l.

(** [f"{n:02d}"] for a non-negative integer. *)
Definition format_02d (n : nat) : string :=
  if n <? 10 then String "0" (NilEmpty.string_of_uint (Nat.to_uint n))
  else NilEmpty.string_of_uint (Nat.to_uint n).

Definition float_add (x y : float) : float :=
  match x, y with
  | Finite a, Finite b => Finite (Qplus a b)
  | NaN, _ | _, NaN => NaN
  | Inf a, Inf b => if Bool.eqb a b then Inf a else NaN
  | Inf a, _ | _, Inf a => Inf a
  end.

Definition float_neg (x : float) : float :=
  match x with
  | Finite a => Finite (Qopp a)
  | Inf a => Inf (negb a)
  | NaN => NaN
  end.

(** Equality of the denoted numbers. *)
Definition float_eqb (x y : float) : bool :=
  match x, y with
  | Finite a, Finite b => Qeq_bool a b
  | Inf a, Inf b => Bool.eqb a b
  | _, _ => false
  end.

End Py.
Import Py.

(** ** The sentence objects the script reads *)

(** What evaluating [msg.timestamp] can give: [None], a [datetime.time]
    (hour, minute, second) or any other object, kept as its [str()]. *)
Inductive TimeVal : Type :=
| TsNone
| TsTime (hour minute second : nat)
| TsOther (text : string).

(** What evaluating [msg.latitude], [msg.longitude] or [msg.altitude] can
    give: [None], a string, a float, or an object [float()] refuses. *)
Inductive CoordVal : Type :=
| CNone
| CStr (s : string)
| CFloat (x : float)
| COther.

(** Reading an attribute of an object: it has a value, it is missing
    ([AttributeError]), or computing it raises another [Exception]. *)
Inductive Attr (A : Type) : Type :=
| Has (v : A)
| Missing
| Fails.
Arguments Has {A} v.
Arguments Missing {A}.
Arguments Fails {A}.

(** A parsed sentence, as far as the script looks at it: the outcome of
    reading each attribute. *)
Record Sentence : Type := mkSentence {
  talker : Attr string;
  sentence_type : Attr string;
  timestamp : Attr TimeVal;
  latitude : Attr CoordVal;
  longitude : Attr CoordVal;
  altitude : Attr CoordVal
}.

(** [msg.name] *)
Definition getattr {A} (attr : Attr A) : Result A :=
  match attr with
  | Has v => Returns v
  | Missing => Raises AttributeError
  | Fails => Raises OtherException
  end.

(** [getattr(msg, name, default)]: only [AttributeError] gives the default. *)
Definition getattr_default {A} (attr : Attr A) (default : A) : Result A :=
  match attr with
  | Has v => Returns v
  | Missing => Returns default
  | Fails => Raises OtherException
  end.

(** ** The pynmea2 package *)

(** Model of the third-party package pynmea2 (imported at line 6; it is not
    part of this repository): [pynmea2.parse] with its sentence pattern,
    checksum test and dispatch on the tag, and the [GGA] sentence class
    with the attributes the script reads.  Text is ASCII: a byte above 127
    is neither a word character, a digit nor a space. *)
Module pynmea2.

(** [\w] *)
Definition is_word (c : ascii) : bool :=
  is_digit c || is_upper c || is_lower c || Ascii.eqb c "_".

Fixpoint all_word (s : string) : bool :=
  match s with
  | EmptyString => true
  | String c r => is_word c && all_word r
  end.

Fixpoint all_digit (s : string) : bool :=
  match s with
  | EmptyString => true
  | String c r => is_digit c && all_digit r
  end.

(** The first [n] characters and the rest, when there are [n]. *)
Fixpoint take (n : nat) (s : string) : option (string * string) :=
  match n, s with
  | O, _ => Some (EmptyString, s)
  | S k, EmptyString => None
  | S k, String c r =>
      match take k r with
      | Some (h, t) => Some (String c h, t)
      | None => None
      end
  end.

Definition is_char_ci (c x : ascii) : bool := Ascii.eqb (upper_char x) c.

(** One hexadecimal digit, either case. *)
Definition hex_val (c : ascii) : option nat :=
  if is_digit c then Some (code c - 48)
  else let u := code (upper_char c) in
       if (65 <=? u) && (u <=? 70) then Some (u - 55) else None.

(** The three spellings of a tag, tried in this order:
    proprietary [P\w{3}], query [\w{2}\w{2}Q,\w{3}], talker [\w{2}\w{3},]. *)
Definition tag_proprietary (t : string) : option (string * string) :=
  match take 4 t with
  | Some (String p w as tag, rest) =>
      if is_char_ci "P" p && all_word w then Some (tag, rest) else None
  | _ => None
  end.

Definition tag_query (t : string) : option (string * string) :=
  match take 9 t with
  | Some (tag, rest) =>
      match take 4 tag with
      | Some (tl, String q (String c s3)) =>
          if all_word tl && is_char_ci "Q" q && Ascii.eqb c ","
             && all_word s3
          then Some (tag, rest) else None
      | _ => None
      end
  | None => None
  end.

Definition tag_talker (t : string) : option (string * string) :=
  match take 6 t with
  | Some (tag, rest) =>
      match take 5 tag with
      | Some (w, String c EmptyString) =>
          if all_word w && Ascii.eqb c "," then Some (tag, rest) else None
      | _ => None
      end
  | None => None
  end.

Definition match_tag (t : string) : option (string * string) :=
  match tag_proprietary t with
  | Some m => Some m
  | None =>
      match tag_query t with
      | Some m => Some m
      | None => tag_talker t
      end
  end.

(** [[^*]*] then the optional [*HH] and trailing whitespace up to the end
    of the line: the data text and the two checksum characters. *)
Fixpoint match_rest (r : string) : option (string * option string) :=
  match r with
  | EmptyString => Some (EmptyString, None)
  | String c r' =>
      if Ascii.eqb c "*" then
        match r' with
        | String h1 (String h2 ws) =>
            match hex_val h1, hex_val h2 with
            | Some _, Some _ =>
                if all_space ws
                then Some (EmptyString,
                           Some (String h1 (String h2 EmptyString)))
                else None
            | _, _ => None
            end
        | _ => None
        end
      else
        match match_rest r' with
        | Some (d, cs) => Some (String c d, cs)
        | None => None
        end
  end.

(** The groups of [sentence_re]. *)
Record Match : Type := mkMatch {
  nmea_str : string;
  tag : string;
  data_str : string;
  checksum_str : option string
}.

(** [sentence_re.match(line)]: optional whitespace, optional [$], the
    tag, the data, the optional checksum, optional whitespace. *)
Definition sentence_re (line : string) : option Match :=
  let t := lstrip line in
  let t := match t with String "$" r => r | _ => t end in
  match match_tag t with
  | Some (tg, rest) =>
      match match_rest rest with
      | Some (d, cs) => Some (mkMatch (tg ++ d) tg d cs)
      | None => None
      end
  | None => None
  end.

(** [reduce(operator.xor, map(ord, nmea_str), 0)] *)
Fixpoint checksum (s : string) : nat :=
  match s with
  | EmptyString => 0
  | String c r => Nat.lxor (code c) (checksum r)
  end.

(** [int(checksum, 16)] on the two matched characters. *)
Definition int16 (cs : string) : nat :=
  match cs with
  | String h1 (String h2 EmptyString) =>
      match hex_val h1, hex_val h2 with
      | Some a, Some b => 16 * a + b
      | _, _ => 0
      end
  | _ => 0
  end.

(** [timestamp(s)] of [nmea_utils]: text [hhmmss[.ss]] to a
    [datetime.time]; only hour, minute and second are kept. *)
Definition microseconds (ms_s : string) : Result Z :=
  match ms_s with
  | EmptyString => Returns 0%Z
  | _ =>
      match float_of_string ms_s with
      | Returns (Finite q) =>
          let x := Qmult q (inject_Z 1000000) in
          Returns (Z.quot (Qnum x) (Zpos (Qden x)))
      | Returns _ => Raises ValueError
      | Raises e => Raises e
      end
  end.

Definition in_range (lo hi v : Z) : bool := (lo <=? v)%Z && (v <=? hi)%Z.

Definition timestamp_of (s : string) : Result TimeVal :=
  bind (microseconds (drop 6 s)) (fun ms =>
  bind (int_of_string (slice 0 2 s)) (fun h =>
  bind (int_of_string (slice 2 4 s)) (fun m =>
  bind (int_of_string (slice 4 6 s)) (fun sec =>
    if in_range 0 23 h && in_range 0 59 m && in_range 0 59 sec
       && in_range 0 999999 ms
    then Returns (TsTime (Z.to_nat h) (Z.to_nat m) (Z.to_nat sec))
    else Raises ValueError)))).

(** [dm_to_sd(dm)]: degrees and minutes [dddmm.mmmm] to decimal degrees.
    The text must match [^(\d+)(\d\d\.\d+)$]. *)
Fixpoint split_dot (s : string) : option (string * string) :=
  match s with
  | EmptyString => None
  | String c r =>
      if Ascii.eqb c "." then Some (EmptyString, r)
      else match split_dot r with
           | Some (a, b) => Some (String c a, b)
           | None => None
           end
  end.

Definition chomp_newline (s : string) : string :=
  let n := String.length s in
  match n with
  | O => s
  | S k => if String.eqb (drop k s) (String "010" EmptyString)
           then substring 0 k s else s
  end.

Definition float_div (x : float) (n : Z) : float :=
  match x with
  | Finite q => Finite (Qdiv q (inject_Z n))
  | other => other
  end.

Definition dm_to_sd (dm : string) : Result float :=
  if String.eqb dm "" || String.eqb dm "0" then Returns (Finite 0%Q)
  else
    match split_dot (chomp_newline dm) with
    | Some (whole, frac) =>
        let n := String.length whole in
        if (3 <=? n) && all_digit whole
           && (1 <=? String.length frac) && all_digit frac
        then
          let d := substring 0 (n - 2) whole in
          let m := (drop (n - 2) whole ++ "." ++ frac)%string in
          bind (float_of_string d) (fun fd =>
          bind (float_of_string m) (fun fm =>
            Returns (float_add fd (float_div fm 60))))
        else Raises ValueError
    | None => Raises ValueError
    end.

(** Field [i] of the data, [''] past the end. *)
Definition field (data : list string) (i : nat) : string :=
  nth i data EmptyString.

(** A field with a converter: [None] when blank, the converted value,
    or the raw text when the converter raises. *)
Definition gga_timestamp (data : list string) : TimeVal :=
  let v := field data 0 in
  if String.eqb v "" then TsNone
  else match timestamp_of v with
       | Returns t => t
       | Raises _ => TsOther v
       end.

Definition gga_altitude (data : list string) : CoordVal :=
  let v := field data 8 in
  if String.eqb v "" then CNone
  else match float_of_string v with
       | Returns x => CFloat x
       | Raises _ => CStr v
       end.

(** The [latitude] and [longitude] properties of [LatLonFix]. *)
Definition signed_degrees (dm dir pos neg : string) : Attr CoordVal :=
  match dm_to_sd dm with
  | Returns sd =>
      if String.eqb dir pos then Has (CFloat sd)
      else if String.eqb dir neg then Has (CFloat (float_neg sd))
      else Has (CFloat (Finite 0%Q))
  | Raises _ => Fails
  end.

Definition GGA (tk : string) (data : list string) : Sentence :=
  {| talker := Has tk;
     sentence_type := Has "GGA";
     timestamp := Has (gga_timestamp data);
     latitude := signed_degrees (field data 1) (field data 2) "N" "S";
     longitude := signed_degrees (field data 3) (field data 4) "E" "W";
     altitude := Has (gga_altitude data) |}.

(** Any other talker sentence class: the script reads no more than its
    [sentence_type], so its fields are left out. *)
Definition other_talker_sentence (tk ty : string) : Sentence :=
  {| talker := Has tk;
     sentence_type := Has ty;
     timestamp := Missing;
     latitude := Missing;
     longitude := Missing;
     altitude := Missing |}.

(** Talker sentence classes besides GGA (an excerpt of the package's
    table; a type outside the table raises [SentenceTypeError]). *)
Definition talker_sentence_types : list string :=
  ["AAM"; "ALM"; "APA"; "APB"; "BEC"; "BOD"; "BWC"; "BWR"; "BWW"; "DBT";
   "DPT"; "GLL"; "GNS"; "GRS"; "GSA"; "GST"; "GSV"; "HDG"; "HDM"; "HDT";
   "MTW"; "MWD"; "MWV"; "RMA"; "RMB"; "RMC"; "ROT"; "RPM"; "RSA"; "RTE";
   "STN"; "TXT"; "VBW"; "VHW"; "VLW"; "VTG"; "WCV"; "WNC"; "WPL"; "XDR";
   "XTE"; "ZDA"].

(** [QuerySentence(talker, listener, sentence_type)]: no data fields. *)
Definition QuerySentence (tk ty : string) : Sentence :=
  {| talker := Has tk;
     sentence_type := Has ty;
     timestamp := Missing;
     latitude := Missing;
     longitude := Missing;
     altitude := Missing |}.

(** [ProprietarySentence(manufacturer, data)]: its constructor stores the
    manufacturer and the data only, so the object has neither [talker]
    nor [sentence_type]. *)
Definition ProprietarySentence (manufacturer : string) : Sentence :=
  {| talker := Missing;
     sentence_type := Missing;
     timestamp := Missing;
     latitude := Missing;
     longitude := Missing;
     altitude := Missing |}.

(** Manufacturers with a class of their own; these classes set a
    [sentence_type] that starts with the manufacturer code (the vendor
    subtype that follows it is left out). *)
Definition vendor_classes : list string :=
  ["ASH"; "GRM"; "KWD"; "MGN"; "NOR"; "RDI"; "SRF"; "SXN"; "TNL"; "VTX"].

Definition VendorSentence (manufacturer : string) : Sentence :=
  {| talker := Missing;
     sentence_type := Has manufacturer;
     timestamp := Missing;
     latitude := Missing;
     longitude := Missing;
     altitude := Missing |}.

(** [talker_re], [query_re] and [proprietary_re] on the upper-cased tag. *)
Definition talker_re (ty : string) : option (string * string) :=
  match tag_talker ty with
  | Some (_, EmptyString) => Some (substring 0 2 ty, substring 2 3 ty)
  | _ => None
  end.

Definition query_re (ty : string) : option (string * string) :=
  match tag_query ty with
  | Some (_, EmptyString) => Some (substring 0 2 ty, substring 6 3 ty)
  | _ => None
  end.

Definition proprietary_re (ty : string) : option string :=
  match tag_proprietary ty with
  | Some (_, EmptyString) => Some (substring 1 3 ty)
  | _ => None
  end.

(** [pynmea2.parse(line)] *)
Definition parse (line : string) : Result Sentence :=
  match sentence_re line with
  | None => Raises ParseError
  | Some m =>
      let ty := upper (tag m) in
      let data := split "," (data_str m) in
      let bad_checksum :=
        match checksum_str m with
        | Some cs => negb (int16 cs =? checksum (nmea_str m))
        | None => false
        end in
      if bad_checksum then Raises ChecksumError
      else
        match talker_re ty with
        | Some (tk, sentence) =>
            if String.eqb sentence "GGA" then Returns (GGA tk data)
            else if mem sentence talker_sentence_types
                 then Returns (other_talker_sentence tk sentence)
                 else Raises SentenceTypeError
        | None =>
            match query_re ty, data_str m with
            | Some (tk, sentence), EmptyString =>
                Returns (QuerySentence tk sentence)
            | _, _ =>
                match proprietary_re ty with
                | Some manufacturer =>
                    if mem manufacturer vendor_classes
                    then Returns (VendorSentence manufacturer)
                    else Returns (ProprietarySentence manufacturer)
                | None => Raises ParseError
                end
            end
        end
  end.

End pynmea2.

(** ** The script *)

(** The module-level settings (lines 17-20). *)
Record Config : Type := mkConfig {
  USE_SERIAL : bool;
  PORT : string;
  BAUD : Z;
  MAX_POINTS : Z
}.

Definition default_config : Config :=
  {| USE_SERIAL := false; PORT := "COM5"; BAUD := 9600; MAX_POINTS := 300 |}.

(** The tuple [time_str, lat, lon, alt] that [parse_nmea] returns. *)
Definition Fix : Type := (string * float * float * float)%type.

Definition GGA_TYPES : list string := ["GGA"; "GNGGA"; "GPGGA"].

(** Lines 40-46: [HH:MM:SS] from the time object; when formatting raises,
    [str(ts)]; the empty string for [None]. *)
Definition time_str_of (ts : TimeVal) : string :=
  match ts with
  | TsNone => ""
  | TsTime h m s =>
      format_02d h ++ ":" ++ format_02d m ++ ":" ++ format_02d s
  | TsOther text => text
  end.

(** [v not in (None, "")] *)
Definition not_blank (v : CoordVal) : bool :=
  match v with
  | CNone => false
  | CStr s => negb (String.eqb s "")
  | CFloat _ | COther => true
  end.

(** [float(v)] *)
Definition py_float (v : CoordVal) : Result float :=
  match v with
  | CFloat x => Returns x
  | CStr s => float_of_string s
  | CNone | COther => Raises TypeError
  end.

(** [float(x) if x not in (None, "") else None], where reading [x] is
    [attr]. *)
Definition coordinate (attr : Result CoordVal) : Result (option float) :=
  bind attr (fun v =>
    if not_blank v then bind (py_float v) (fun x => Returns (Some x))
    else Returns None).

Section ParseNmea.

(** The structural parser the script calls at line 32. *)
Variable pynmea2_parse : string -> Result Sentence.

(** Lines 49-54, before the [except]. *)
Definition read_coordinates (msg : Sentence)
  : Result (option float * option float * option float) :=
  bind (coordinate (getattr (latitude msg))) (fun lat =>
  bind (coordinate (getattr (longitude msg))) (fun lon =>
  bind (coordinate (getattr_default (altitude msg) CNone)) (fun alt =>
    Returns (lat, lon, alt)))).

(** Lines 37-61, once [pynmea2.parse] has returned [msg]. *)
Definition extract_fix (msg : Sentence) : Result (option Fix) :=
  bind (getattr (sentence_type msg)) (fun ty =>
    if mem ty GGA_TYPES then
      bind (getattr_default (timestamp msg) TsNone) (fun ts =>
        let time_str := time_str_of ts in
        match read_coordinates msg with
        | Returns (Some lat, Some lon, Some alt) =>
            Returns (Some (time_str, lat, lon, alt))
        | Returns _ => Returns None
        | Raises e => if is_Exception e then Returns None else Raises e
        end)
    else Returns None).

(** [parse_nmea(line)]: [Returns None] is the script's [return None]. *)
Definition parse_nmea (line : string) : Result (option Fix) :=
  match pynmea2_parse line with
  | Raises e => if is_Exception e then Returns None else Raises e
  | Returns msg => extract_fix msg
  end.

End ParseNmea.

(** What the script prints. *)
Inductive Out : Type :=
| Text (s : string)
| CouldNotOpen (port err : string)
| Listening (port : string) (baud max_points : Z)
| PointLine (n : nat) (t : string) (la lo al : float)
| Traceback
| Collected (n : nat)
| Row (i : nat) (t : string) (la lo al : float).

(** The four global lists (lines 24-27) and the printed lines. *)
Record Store : Type := mkStore {
  time_data : list string;
  lat_data : list float;
  lon_data : list float;
  alt_data : list float;
  printed : list Out
}.

Definition empty_store : Store := mkStore [] [] [] [] [].

Definition print (o : Out) (st : Store) : Store :=
  mkStore (time_data st) (lat_data st) (lon_data st) (alt_data st)
          (printed st ++ [o]).

(** The four [append] calls (lines 85-88 and 114-117). *)
Definition append_fix (f : Fix) (st : Store) : Store :=
  let '(t, la, lo, al) := f in
  mkStore (time_data st ++ [t]) (lat_data st ++ [la])
          (lon_data st ++ [lo]) (alt_data st ++ [al]) (printed st).

(** The first [done] of the four [append] calls, in the order of lines
    85-88: [time_data], [lat_data], [lon_data], [alt_data]. *)
Definition partial_append (done : nat) (f : Fix) (st : Store) : Store :=
  let '(t, la, lo, al) := f in
  mkStore (if 1 <=? done then time_data st ++ [t] else time_data st)
          (if 2 <=? done then lat_data st ++ [la] else lat_data st)
          (if 3 <=? done then lon_data st ++ [lo] else lon_data st)
          (if 4 <=? done then alt_data st ++ [al] else alt_data st)
          (printed st).

(** Line 157. *)
Definition clear (st : Store) : Store := mkStore [] [] [] [] (printed st).

(** What one turn of the read loop meets: [ser.readline()] returns bytes,
    or it raises, or it returns bytes and a [KeyboardInterrupt] arrives in
    the body of the loop once [done] of the four [append] calls of lines
    85-88 have run. *)
Inductive ReadEvent : Type :=
| Line (bytes : string)
| ReadRaises (e : Exn)
| LineInterrupted (bytes : string) (done : nat).

(** The serial side of the environment: pyserial missing (line 14), the
    port failing to open, or a port and what its successive reads give. *)
Inductive SerialModule : Type :=
| NoSerial
| OpenFails (err : string)
| Opens (reads : list ReadEvent).

(** How the read loop of [collect_from_serial] stands after the given
    reads. *)
Inductive LoopExit : Type :=
| CapReached
| Interrupted
| Faulted
| Pending.

(** How [collect_from_serial] stands. *)
Inductive Session : Type :=
| NotOpened
| Closed (how : LoopExit)
| StillReading.

Definition test_lines : list string :=
  ["$GPGGA,123519,4807.038,N,01131.000,E,1,08,0.9,545.4,M,46.9,M,,*47";
   "$GPGGA,123520,4807.123,N,01131.321,E,1,08,0.9,550.0,M,46.9,M,,*48";
   "$GPGGA,123521,4807.210,N,01131.600,E,1,08,0.9,560.0,M,46.9,M,,*49";
   "$GPGGA,123522,4807.350,N,01131.800,E,1,08,0.9,570.0,M,46.9,M,,*50";
   "$GPGGA,123523,4807.500,N,01132.050,E,1,08,0.9,580.0,M,46.9,M,,*51";
   "$GPGGA,123524,4807.720,N,01132.300,E,1,08,0.9,590.0,M,46.9,M,,*52"].

(** What [plot_3d] ends with. *)
Inductive Rendered : Type :=
| NothingToPlot
| Figure (xs ys zs : list float) (start finish : float * float * float)
         (saved : bool)
| PlotFailed.

Section Collect.

Variable pynmea2_parse : string -> Result Sentence.

(** Lines 90-94: the handlers of the read loop. *)
Definition loop_handler (e : Exn) (st : Store) : Store * LoopExit :=
  if is_Exception e
  then (print Traceback
          (print (Text "[!] Unexpected error while reading serial:") st),
        Faulted)
  else (print (Text (String "010" "[i] Interrupted by user.")) st, Interrupted).

(** Lines 78-94: the [while] loop inside its [try], run on the reads the
    port delivers.  [Pending] says the loop is still waiting for a line
    when the given reads are used up.  An interrupt that arrives in the body
    is caught at line 90 like one that arrives in [readline]; when it
    arrives among the four [append] calls, the calls already made stay. *)
Fixpoint read_loop (max_points : Z) (reads : list ReadEvent) (st : Store)
  : Store * LoopExit :=
  if (Z.of_nat (length (lat_data st)) <? max_points)%Z then
    match reads with
    | [] => (st, Pending)
    | ReadRaises e :: _ => loop_handler e st
    | Line bytes :: rest =>
        let raw := strip (decode_ascii_ignore bytes) in
        if String.eqb raw "" then read_loop max_points rest st
        else
          match parse_nmea pynmea2_parse raw with
          | Raises e => loop_handler e st
          | Returns None => read_loop max_points rest st
          | Returns (Some (t, la, lo, al)) =>
              let st1 := append_fix (t, la, lo, al) st in
              read_loop max_points rest
                (print (PointLine (length (lat_data st1)) t la lo al) st1)
          end
    | LineInterrupted bytes done :: _ =>
        let raw := strip (decode_ascii_ignore bytes) in
        if String.eqb raw "" then loop_handler KeyboardInterrupt st
        else
          match parse_nmea pynmea2_parse raw with
          | Raises e => loop_handler e st
          | Returns None => loop_handler KeyboardInterrupt st
          | Returns (Some f) =>
              loop_handler KeyboardInterrupt (partial_append done f st)
          end
    end
  else (st, CapReached).

(** [collect_from_serial(port, baud, max_points)] *)
Definition collect_from_serial (serial : SerialModule)
    (port : string) (baud max_points : Z) (st : Store) : Store * Session :=
  match serial with
  | NoSerial =>
      (print (Text
         "[!] pyserial not available. Install it with: pip install pyserial")
         st, NotOpened)
  | OpenFails err => (print (CouldNotOpen port err) st, NotOpened)
  | Opens reads =>
      match read_loop max_points reads
              (print (Listening port baud max_points) st) with
      | (st1, Pending) => (st1, StillReading)
      | (st1, how) => (print (Text "[i] Serial closed.") st1, Closed how)
      end
  end.

(** Lines 110-117: the [for] loop over the given lines. *)
Fixpoint collect_lines (lines : list string) (st : Store) : Result Store :=
  match lines with
  | [] => Returns st
  | line :: rest =>
      match parse_nmea pynmea2_parse line with
      | Raises e => Raises e
      | Returns None => collect_lines rest st
      | Returns (Some f) => collect_lines rest (append_fix f st)
      end
  end.

(** [collect_from_testlines()] *)
Definition collect_from_testlines (st : Store) : Result Store :=
  collect_lines test_lines st.

(** [plot_3d(save_png)]; [plt_works] says whether the matplotlib calls
    complete, and when they do not it is an [Exception] they raise: an
    interrupt during the plot, which lines 146-151 would let through, is not
    part of this model. *)
Definition plot_3d (plt_works save_png : bool) (st : Store)
  : Store * Rendered :=
  match lat_data st with
  | [] => (print (Text "[!] No data collected. Nothing to plot.") st,
           NothingToPlot)
  | _ :: _ =>
      let failed :=
        (print Traceback (print (Text "[!] Unexpected error in plot_3d():") st),
         PlotFailed) in
      if plt_works then
        match hd_error (lon_data st), hd_error (lat_data st),
              hd_error (alt_data st),
              hd_error (rev (lon_data st)), hd_error (rev (lat_data st)),
              hd_error (rev (alt_data st)) with
        | Some x0, Some y0, Some z0, Some x1, Some y1, Some z1 =>
            let fig := Figure (lon_data st) (lat_data st) (alt_data st)
                              (x0, y0, z0) (x1, y1, z1) save_png in
            (if save_png
             then print (Text "[i] Saved trajectory_3d.png") st else st,
             fig)
        | _, _, _, _, _, _ => failed
        end
      else failed
  end.

(** Lines 166-167: one printed row per point. *)
Fixpoint rows (n i : nat) (st : Store) : Result (list Out) :=
  match n with
  | O => Returns []
  | S k =>
      match nth_error (time_data st) i, nth_error (lat_data st) i,
            nth_error (lon_data st) i, nth_error (alt_data st) i with
      | Some t, Some la, Some lo, Some al =>
          bind (rows k (S i) st) (fun r =>
            Returns (Row (S i) t la lo al :: r))
      | _, _, _, _ => Raises IndexError
      end
  end.

(** Lines 155-169: the script run as a program.  The result is the final
    store, how the serial session stands (when there was one) and what
    the plot ended with; [Raises] is an uncaught exception. *)
Definition main (cfg : Config) (serial : SerialModule) (plt_works : bool)
  : Result (Store * option Session * Rendered) :=
  let st0 := clear empty_store in
  bind (if USE_SERIAL cfg
        then let '(st, se) :=
               collect_from_serial serial (PORT cfg) (BAUD cfg)
                                   (MAX_POINTS cfg) st0 in
             Returns (st, Some se)
        else bind (collect_from_testlines st0) (fun st =>
               Returns (st, None)))
    (fun '(st, se) =>
       let st1 := print (Collected (length (lat_data st))) st in
       bind (rows (length (lat_data st1)) 0 st1) (fun r =>
         let st2 := mkStore (time_data st1) (lat_data st1) (lon_data st1)
                            (alt_data st1) (printed st1 ++ r) in
         let '(st3, fig) := plot_3d plt_works true st2 in
         Returns (st3, se, fig))).

(** The fixes among the given lines, in order. *)
Fixpoint accepted (lines : list string) : list Fix :=
  match lines with
  | [] => []
  | line :: rest =>
      match parse_nmea pynmea2_parse line with
      | Returns (Some f) => f :: accepted rest
      | _ => accepted rest
      end
  end.

End Collect.

(** The script with the package in place of the parameter. *)
Definition parse_line : string -> Result (option Fix) :=
  parse_nmea pynmea2.parse.

Definition run (cfg : Config) (serial : SerialModule) (plt_works : bool)
  : Result (Store * option Session * Rendered) :=
  main pynmea2.parse cfg serial plt_works.

(** The track as a list of fixes: the i-th elements of the four lists. *)
Fixpoint zip4 (ts : list string) (las los als : list float) : list Fix :=
  match ts, las, los, als with
  | t :: ts', la :: las', lo :: los', al :: als' =>
      (t, la, lo, al) :: zip4 ts' las' los' als'
  | _, _, _, _ => []
  end.

Definition track (st : Store) : list Fix :=
  zip4 (time_data st) (lat_data st) (lon_data st) (alt_data st).

(** Projections of a fix. *)
Definition fix_time (f : Fix) : string := let '(t, _, _, _) := f in t.
Definition fix_lat (f : Fix) : float := let '(_, la, _, _) := f in la.
Definition fix_lon (f : Fix) : float := let '(_, _, lo, _) := f in lo.
Definition fix_alt (f : Fix) : float := let '(_, _, _, al) := f in al.

(** The number a finite float denotes lies within [eps] of [target]. *)
Definition near (x : float) (target eps : Q) : Prop :=
  match x with
  | Finite q => (Qabs (q - target) < eps)%Q
  | _ => False
  end.

(** A coordinate the script can use: the attribute read gives a value that
    is neither [None] nor blank and that [float] converts to [x]. *)
Definition decodes_to (attr : Result CoordVal) (x : float) : Prop :=
  exists v, attr = Returns v /\ not_blank v = true /\ py_float v = Returns x.

(** A coordinate the script cannot use: reading it raises, or it is [None]
    or blank, or [float] refuses it. *)
Definition unusable (attr : Result CoordVal) : Prop :=
  (exists e, attr = Raises e /\ is_Exception e = true)
  \/ (exists v, attr = Returns v /\ not_blank v = false)
  \/ (exists v e, attr = Returns v /\ not_blank v = true
                  /\ py_float v = Raises e).

Definition set_talker (tk : Attr string) (msg : Sentence) : Sentence :=
  mkSentence tk (sentence_type msg) (timestamp msg) (latitude msg)
             (longitude msg) (altitude msg).

Definition set_timestamp (ts : Attr TimeVal) (msg : Sentence) : Sentence :=
  mkSentence (talker msg) (sentence_type msg) ts (latitude msg)
             (longitude msg) (altitude msg).

(** The text holds no [*], so it carries no checksum. *)
Fixpoint no_star (s : string) : bool :=
  match s with
  | EmptyString => true
  | String c r => negb (Ascii.eqb c "*") && no_star r
  end.

(** The four lists have one length. *)
Definition aligned (st : Store) : Prop :=
  length (time_data st) = length (lat_data st)
  /\ length (lon_data st) = length (lat_data st)
  /\ length (alt_data st) = length (lat_data st).

(** The store holds [fs] after what [st] held, element by element. *)
Definition extends (st st' : Store) (fs : list Fix) : Prop :=
  time_data st' = (time_data st ++ map fix_time fs)%list
  /\ lat_data st' = (lat_data st ++ map fix_lat fs)%list
  /\ lon_data st' = (lon_data st ++ map fix_lon fs)%list
  /\ alt_data st' = (alt_data st ++ map fix_alt fs)%list.

(** The text the read loop makes of the bytes of one read (line 79). *)
Definition raw_of (bytes : string) : string :=
  strip (decode_ascii_ignore bytes).

(** A read that leaves no trace: a blank line (line 80) or a line
    [parse_nmea] returns [None] for (line 83). *)
Definition skipped (lib : string -> Result Sentence) (ev : ReadEvent) : bool :=
  match ev with
  | Line bytes =>
      if String.eqb (raw_of bytes) "" then true
      else match parse_nmea lib (raw_of bytes) with
           | Returns None => true
           | _ => false
           end
  | ReadRaises _ => false
  | LineInterrupted _ _ => false
  end.

(** The four lists of a store, without what was printed. *)
Definition lists_of (st : Store)
  : list string * list float * list float * list float :=
  (time_data st, lat_data st, lon_data st, alt_data st).

Fixpoint all_ascii (s : string) : bool :=
  match s with
  | EmptyString => true
  | String c r => (code c <? 128) && all_ascii r
  end.

Definition first_not_space (s : string) : bool :=
  match s with
  | EmptyString => true
  | String c _ => negb (is_space c)
  end.

Fixpoint last_not_space (s : string) : bool :=
  match s with
  | EmptyString => true
  | String c EmptyString => negb (is_space c)
  | String _ r => last_not_space r
  end.

(** Text as the read loop hands it to [parse_nmea]: not empty, ASCII only,
    no whitespace at either end. *)
Definition clean (s : string) : bool :=
  negb (String.eqb s "") && all_ascii s
  && first_not_space s && last_not_space s.

(** The printed row of the i-th fix (line 167), counted from [k]. *)
Fixpoint rows_of (k : nat) (fs : list Fix) : list Out :=
  match fs with
  | [] => []
  | (t, la, lo, al) :: rest => Row (S k) t la lo al :: rows_of (S k) rest
  end.

(** The line printed when the port is closed (line 97). *)
Definition is_closed_line (o : Out) : bool :=
  match o with
  | Text s => String.eqb s "[i] Serial closed."
  | _ => false
  end.

(** How many times the closing of the port was printed. *)
Definition times_closed (st : Store) : nat :=
  length (filter is_closed_line (printed st)).

(** A read during which no interrupt arrives in the body of the loop. *)
Definition whole (ev : ReadEvent) : bool :=
  match ev with
  | LineInterrupted _ _ => false
  | _ => true
  end.



(** Text of the form [HH:MM:SS]: two digits, a colon, two digits, a
    colon, two digits. *)
Definition is_hhmmss (t : string) : bool :=
  match t with
  | String h1 (String h2 (String ":" (String m1 (String m2
      (String ":" (String s1 (String s2 EmptyString))))))) =>
      is_digit h1 && is_digit h2 && is_digit m1 && is_digit m2
      && is_digit s1 && is_digit s2
  | _ => false
  end.

(** * Properties *)

(** ** The parser *)

Lemma mem_In (x : string) (l : list string) :
  mem x l = true <-> In x l.
Proof.
  unfold mem. rewrite existsb_exists. split.
  - intros [y [Hy He]]. apply String.eqb_eq in He. now subst.
  - intros H. exists x. split; [assumption | apply String.eqb_refl].
Qed.

Lemma exceptions_of_float (s : string) (e : Exn) :
  float_of_string s = Raises e -> is_Exception e = true.
Proof.
  unfold float_of_string.
  destruct (take_sign (strip s)) as [neg body].
  destruct (_ || _); [discriminate|].
  destruct (String.eqb _ _); [discriminate|].
  destruct (floatnumber body); [discriminate|].
  intros H. now inversion H.
Qed.

Lemma exceptions_of_py_float (v : CoordVal) (e : Exn) :
  py_float v = Raises e -> is_Exception e = true.
Proof.
  destruct v; simpl; try discriminate.
  - intros H. now inversion H.
  - apply exceptions_of_float.
  - intros H. now inversion H.
Qed.

Lemma exceptions_of_getattr {A} (a : Attr A) (e : Exn) :
  getattr a = Raises e -> is_Exception e = true.
Proof. destruct a; simpl; intros H; inversion H; reflexivity. Qed.

Lemma exceptions_of_getattr_default {A} (a : Attr A) (d : A) (e : Exn) :
  getattr_default a d = Raises e -> is_Exception e = true.
Proof. destruct a; simpl; intros H; inversion H; reflexivity. Qed.

(** [coordinate] gives a number exactly on usable coordinates. *)
Lemma coordinate_Some (attr : Result CoordVal) (x : float) :
  coordinate attr = Returns (Some x) <-> decodes_to attr x.
Proof.
  unfold coordinate, decodes_to. split.
  - destruct attr as [v|e]; simpl; [|discriminate].
    destruct (not_blank v) eqn:Hb; [|discriminate].
    destruct (py_float v) as [y|e] eqn:Hf; simpl; [|discriminate].
    intros H. inversion H. subst. now exists v.
  - intros [v [-> [Hb Hf]]]. simpl. now rewrite Hb, Hf.
Qed.

Lemma coordinate_unusable (attr : Result CoordVal) :
  unusable attr ->
  coordinate attr = Returns None
  \/ exists e, coordinate attr = Raises e /\ is_Exception e = true.
Proof.
  unfold coordinate.
  intros [[e [-> He]] | [[v [-> Hb]] | [v [e [-> [Hb Hf]]]]]]; simpl.
  - right. now exists e.
  - left. now rewrite Hb.
  - right. rewrite Hb, Hf. simpl. exists e. split; [reflexivity|].
    now apply exceptions_of_py_float in Hf.
Qed.

(** Every way in which [read_coordinates] can end. *)
Lemma read_coordinates_cases (msg : Sentence) :
  (exists e, read_coordinates msg = Raises e /\ is_Exception e = true)
  \/ exists lat lon alt,
       read_coordinates msg = Returns (lat, lon, alt)
       /\ coordinate (getattr (latitude msg)) = Returns lat
       /\ coordinate (getattr (longitude msg)) = Returns lon
       /\ coordinate (getattr_default (altitude msg) CNone) = Returns alt.
Proof.
  assert (Hc : forall attr : Result CoordVal,
             (forall e, attr = Raises e -> is_Exception e = true) ->
             (exists e, coordinate attr = Raises e /\ is_Exception e = true)
             \/ exists o, coordinate attr = Returns o).
  { intros [v|e] Hex; simpl.
    - destruct (not_blank v); [|right; eauto].
      destruct (py_float v) as [y|e] eqn:Hf; simpl; [right; eauto|].
      left. exists e. split; [reflexivity|].
      now apply exceptions_of_py_float in Hf.
    - left. exists e. split; [reflexivity | now apply Hex]. }
  unfold read_coordinates.
  destruct (Hc (getattr (latitude msg)) (exceptions_of_getattr _))
    as [[e1 [-> He1]] | [lat ->]]; [left; exists e1; now split|].
  destruct (Hc (getattr (longitude msg)) (exceptions_of_getattr _))
    as [[e2 [-> He2]] | [lon ->]]; [left; exists e2; now split|].
  destruct (Hc (getattr_default (altitude msg) CNone)
               (exceptions_of_getattr_default _ _))
    as [[e3 [-> He3]] | [alt ->]]; [left; exists e3; now split|].
  right. exists lat, lon, alt. simpl. auto.
Qed.

(** What an accepted sentence looked like. *)
Lemma extract_fix_Some (msg : Sentence) (t : string) (x y z : float) :
  extract_fix msg = Returns (Some (t, x, y, z)) <->
  exists ty ts,
    sentence_type msg = Has ty /\ In ty GGA_TYPES
    /\ getattr_default (timestamp msg) TsNone = Returns ts
    /\ t = time_str_of ts
    /\ decodes_to (getattr (latitude msg)) x
    /\ decodes_to (getattr (longitude msg)) y
    /\ decodes_to (getattr_default (altitude msg) CNone) z.
Proof.
  unfold extract_fix. split.
  - destruct (sentence_type msg) as [ty| |] eqn:Hty; cbn [getattr bind];
      try discriminate.
    destruct (mem ty GGA_TYPES) eqn:Hmem; [|discriminate].
    destruct (getattr_default (timestamp msg) TsNone) as [ts|e] eqn:Hts;
      cbn [bind]; [|discriminate].
    destruct (read_coordinates_cases msg)
      as [[e [-> He]] | [lat [lon [alt [-> [Hla [Hlo Hal]]]]]]].
    + rewrite He. discriminate.
    + destruct lat as [x'|]; [|discriminate].
      destruct lon as [y'|]; [|discriminate].
      destruct alt as [z'|]; [|discriminate].
      intros H. inversion H. subst.
      exists ty, ts. rewrite <- !coordinate_Some.
      repeat split; try assumption. now apply mem_In.
  - intros [ty [ts [Hty [Hin [Hts [-> [Hla [Hlo Hal]]]]]]]].
    rewrite Hty. cbn [getattr bind]. apply mem_In in Hin.
    rewrite Hin, Hts. cbn [bind].
    apply coordinate_Some in Hla, Hlo, Hal.
    unfold read_coordinates. rewrite Hla, Hlo, Hal. reflexivity.
Qed.

(** The package raises nothing but its own parse errors. *)
Lemma exceptions_of_parse (line : string) (e : Exn) :
  pynmea2.parse line = Raises e -> is_Exception e = true.
Proof.
  unfold pynmea2.parse.
  destruct (pynmea2.sentence_re line) as [m|]; [|intros H; now inversion H].
  destruct (match pynmea2.checksum_str m with Some _ => _ | None => _ end);
    [intros H; now inversion H|].
  destruct (pynmea2.talker_re _) as [[tk ty]|].
  - destruct (String.eqb ty "GGA"); [discriminate|].
    destruct (mem _ _); [discriminate|].
    intros H; now inversion H.
  - destruct (pynmea2.query_re _) as [[tk ty]|];
      [destruct (pynmea2.data_str m); [discriminate|]|];
      (destruct (pynmea2.proprietary_re _);
       [destruct (mem _ _); discriminate
       | intros H; now inversion H]).
Qed.

(** [parse_nmea] hands back what [extract_fix] makes of the parsed
    sentence and turns a parse error into [None]. *)
Lemma parse_nmea_parsed (lib : string -> Result Sentence) line msg :
  lib line = Returns msg -> parse_nmea lib line = extract_fix msg.
Proof. unfold parse_nmea. now intros ->. Qed.

Lemma parse_nmea_unparsed (lib : string -> Result Sentence) line e :
  lib line = Raises e -> is_Exception e = true ->
  parse_nmea lib line = Returns None.
Proof. unfold parse_nmea. intros -> He. now rewrite He. Qed.

Lemma parse_nmea_Some (lib : string -> Result Sentence) line f :
  parse_nmea lib line = Returns (Some f) ->
  exists msg, lib line = Returns msg /\ extract_fix msg = Returns (Some f).
Proof.
  unfold parse_nmea. destruct (lib line) as [msg|e].
  - intros H. now exists msg.
  - destruct (is_Exception e); discriminate.
Qed.

(** The only two ways out of [parse_nmea] with an exception once a sentence
    object is at hand: [sentence_type] cannot be read (line 37), or reading
    [timestamp] raises something other than [AttributeError] (line 39).
    Everything else is caught. *)
Lemma extract_fix_returns (msg : Sentence) :
  (exists ty, sentence_type msg = Has ty) ->
  timestamp msg <> Fails ->
  exists r, extract_fix msg = Returns r.
Proof.
  intros [ty Hty] Hts. unfold extract_fix. rewrite Hty. cbn [getattr bind].
  destruct (mem ty GGA_TYPES); [|eauto].
  destruct (timestamp msg) as [ts| |]; [| |contradiction]; cbn [getattr_default bind];
    (destruct (read_coordinates_cases msg)
       as [[e [-> He]] | [lat [lon [alt [-> _]]]]];
     [rewrite He; eauto
     | destruct lat, lon, alt; eauto]).
Qed.

Lemma format_02d_two_digits (n : nat) :
  n < 100 ->
  format_02d n
  = String (ascii_of_nat (48 + n / 10))
           (String (ascii_of_nat (48 + n mod 10)) EmptyString).
Proof.
  intros Hn.
  assert (Hall : forallb (fun k =>
            String.eqb (format_02d k)
              (String (ascii_of_nat (48 + k / 10))
                      (String (ascii_of_nat (48 + k mod 10)) EmptyString)))
            (seq 0 100) = true) by (vm_compute; reflexivity).
  rewrite forallb_forall in Hall.
  apply String.eqb_eq, Hall, in_seq. lia.
Qed.

(** C1. A GGA sentence whose latitude, longitude and altitude are present
    and convertible is returned as a fix carrying the three converted
    numbers; the sentence
    [$GPGGA,123519,4807.038,N,01131.000,E,1,08,0.9,545.4,M,46.9,M,,*47]
    gives latitude about 48.1173, longitude about 11.5167 and altitude
    545.4. *)
Theorem parse_nmea_decodes_fix :
  (forall (lib : string -> Result Sentence) line msg ty ts x y z,
      lib line = Returns msg ->
      sentence_type msg = Has ty -> In ty GGA_TYPES ->
      getattr_default (timestamp msg) TsNone = Returns ts ->
      decodes_to (getattr (latitude msg)) x ->
      decodes_to (getattr (longitude msg)) y ->
      decodes_to (getattr_default (altitude msg) CNone) z ->
      parse_nmea lib line = Returns (Some (time_str_of ts, x, y, z)))
  /\ exists la lo al,
       parse_line
         "$GPGGA,123519,4807.038,N,01131.000,E,1,08,0.9,545.4,M,46.9,M,,*47"
       = Returns (Some ("12:35:19", la, lo, al))
       /\ near la (481173 # 10000) (1 # 10000)
       /\ near lo (115167 # 10000) (1 # 10000)
       /\ float_eqb al (Finite (5454 # 10)) = true.
Proof.
  split.
  - intros lib line msg ty ts x y z Hp Hty Hin Hts Hx Hy Hz.
    rewrite (parse_nmea_parsed _ _ _ Hp).
    apply extract_fix_Some. exists ty, ts. auto 10.
  - exists (Finite (2887038 # 60000)), (Finite (691000 # 60000)),
           (Finite (5454 # 10)).
    repeat split; vm_compute; reflexivity.
Qed.

Lemma parse_nmea_decodes_fix_witness :
  parse_nmea pynmea2.parse
    "$GPGGA,123519,4807.038,N,01131.000,E,1,08,0.9,545.4,M,46.9,M,,*47"
  = Returns (Some ("12:35:19", Finite (2887038 # 60000),
                   Finite (691000 # 60000), Finite (5454 # 10))).
Proof.
  apply (proj1 parse_nmea_decodes_fix pynmea2.parse _
           (pynmea2.GGA "GP"
              ["123519"; "4807.038"; "N"; "01131.000"; "E"; "1"; "08"; "0.9";
               "545.4"; "M"; "46.9"; "M"; ""; ""])
           "GGA" (TsTime 12 35 19)).
  - reflexivity.
  - reflexivity.
  - simpl; auto.
  - reflexivity.
  - exists (CFloat (Finite (2887038 # 60000))). repeat split; reflexivity.
  - exists (CFloat (Finite (691000 # 60000))). repeat split; reflexivity.
  - exists (CFloat (Finite (5454 # 10))). repeat split; reflexivity.
Defined.

(** C2. The script does not keep every exception inside [parse_nmea]: the
    parser returns an object without [sentence_type] for the proprietary
    sentence [$PLCJ,5F01,66FC,AA,9390,6373], and reading that attribute at
    line 37 raises [AttributeError] to the caller. *)
Theorem parse_nmea_raises_on_proprietary :
  parse_line "$PLCJ,5F01,66FC,AA,9390,6373" = Raises AttributeError.
Proof. reflexivity. Qed.

(** C3. A line the structural parser refuses is rejected: whatever the
    parser raises, [parse_nmea] returns [None]; the parser refuses a line
    that does not match the sentence pattern, a line whose checksum differs
    from the one computed over its text, and so the empty line. *)
Theorem parse_nmea_rejects_unparsed :
  (forall (lib : string -> Result Sentence) line e,
      lib line = Raises e -> is_Exception e = true ->
      parse_nmea lib line = Returns None)
  /\ (forall line e, pynmea2.parse line = Raises e ->
        parse_line line = Returns None)
  /\ (forall line, pynmea2.sentence_re line = None ->
        pynmea2.parse line = Raises ParseError)
  /\ (forall line m cs,
        pynmea2.sentence_re line = Some m ->
        pynmea2.checksum_str m = Some cs ->
        pynmea2.int16 cs <> pynmea2.checksum (pynmea2.nmea_str m) ->
        pynmea2.parse line = Raises ChecksumError)
  /\ parse_line "" = Returns None.
Proof.
  split; [exact parse_nmea_unparsed|].
  split.
  { intros line e H. apply (parse_nmea_unparsed _ _ _ H).
    exact (exceptions_of_parse _ _ H). }
  split.
  { intros line H. unfold pynmea2.parse. now rewrite H. }
  split; [|reflexivity].
  intros line m cs Hm Hcs Hne. unfold pynmea2.parse. rewrite Hm, Hcs.
  apply Nat.eqb_neq in Hne. now rewrite Hne.
Qed.

Lemma parse_nmea_rejects_unparsed_witness :
  parse_nmea pynmea2.parse
    "$GPGGA,123520,4807.123,N,01131.321,E,1,08,0.9,550.0,M,46.9,M,,*48"
  = Returns None
  /\ parse_nmea pynmea2.parse "$GPGGA,123519*4" = Returns None
  /\ parse_nmea pynmea2.parse "" = Returns None.
Proof.
  split; [|split].
  - apply (proj1 parse_nmea_rejects_unparsed pynmea2.parse _ ChecksumError);
      reflexivity.
  - apply (proj1 parse_nmea_rejects_unparsed pynmea2.parse _ ParseError);
      reflexivity.
  - apply (proj1 parse_nmea_rejects_unparsed pynmea2.parse _ ParseError);
      reflexivity.
Defined.

Lemma match_rest_no_star (r : string) :
  no_star r = true -> pynmea2.match_rest r = Some (r, None).
Proof.
  induction r as [|c r IH]; simpl; [reflexivity|].
  destruct (Ascii.eqb c "*"); simpl; [discriminate|].
  intros H. now rewrite (IH H).
Qed.

Lemma is_word_upper (c : ascii) :
  pynmea2.is_word c = true -> pynmea2.is_word (upper_char c) = true.
Proof.
  assert (Hall : forallb (fun n =>
            implb (pynmea2.is_word (ascii_of_nat n))
                  (pynmea2.is_word (upper_char (ascii_of_nat n))))
            (seq 0 256) = true) by (vm_compute; reflexivity).
  rewrite forallb_forall in Hall.
  intros Hw. specialize (Hall (nat_of_ascii c)).
  rewrite ascii_nat_embedding, Hw in Hall. apply Hall.
  apply in_seq. pose proof (nat_ascii_bounded c). lia.
Qed.

(** A line [$ttGGA,fields] without checksum, [tt] any two word characters
    of which the first is not [P]: the parser returns a GGA sentence with
    that talker and those fields. *)
Lemma parse_GGA_any_talker (a b : ascii) (fields : string) :
  pynmea2.is_word a = true -> pynmea2.is_word b = true ->
  pynmea2.is_char_ci "P" a = false ->
  no_star fields = true ->
  pynmea2.parse
    (String "$" (String a (String b ("GGA," ++ fields))))
  = Returns (pynmea2.GGA
               (String (upper_char a) (String (upper_char b) EmptyString))
               (split "," fields)).
Proof.
  intros Ha Hb Hp Hf.
  assert (Hq : pynmea2.tag_query
                 (String a (String b ("GGA," ++ fields))) = None).
  { unfold pynmea2.tag_query. simpl.
    destruct fields as [|f1 [|f2 [|f3 fs]]]; simpl; try reflexivity.
    rewrite Ha, Hb. reflexivity. }
  unfold pynmea2.parse, pynmea2.sentence_re.
  change (lstrip (String "$" (String a (String b ("GGA," ++ fields)))))
    with (String "$" (String a (String b ("GGA," ++ fields)))).
  cbv iota beta.
  unfold pynmea2.match_tag.
  replace (pynmea2.tag_proprietary (String a (String b ("GGA," ++ fields))))
    with (@None (string * string))
    by (unfold pynmea2.tag_proprietary; simpl; now rewrite Hp).
  rewrite Hq.
  replace (pynmea2.tag_talker (String a (String b ("GGA," ++ fields))))
    with (Some (String a (String b "GGA,"), fields))
    by (unfold pynmea2.tag_talker; simpl; now rewrite Ha, Hb).
  rewrite (match_rest_no_star _ Hf).
  cbn [pynmea2.tag pynmea2.data_str pynmea2.checksum_str pynmea2.nmea_str].
  replace (pynmea2.talker_re (upper (String a (String b "GGA,"))))
    with (Some (String (upper_char a) (String (upper_char b) EmptyString),
                "GGA"))
    by (unfold pynmea2.talker_re, pynmea2.tag_talker; simpl;
        now rewrite (is_word_upper _ Ha), (is_word_upper _ Hb)).
  reflexivity.
Qed.

(** The type filter on sentences that carry a type.  A parsed sentence
    whose [sentence_type] is read and is none of the GGA spellings is
    rejected.  The talker id plays no part: the script never reads it, and
    the parser reports the type [GGA] whatever the talker, so a GGA line
    [$ttGGA,fields] gives what [$GPGGA,fields] gives for every two-character
    talker [tt] (a tag that starts with [P] is a proprietary tag, not a
    talker). *)
Lemma type_filter :
  (forall (lib : string -> Result Sentence) line msg ty,
      lib line = Returns msg ->
      sentence_type msg = Has ty -> ~ In ty GGA_TYPES ->
      parse_nmea lib line = Returns None)
  /\ (forall msg tk, extract_fix (set_talker tk msg) = extract_fix msg)
  /\ (forall tk data,
        sentence_type (pynmea2.GGA tk data) = Has "GGA"
        /\ extract_fix (pynmea2.GGA tk data)
           = extract_fix (pynmea2.GGA "GP" data))
  /\ (forall a b fields,
        pynmea2.is_word a = true -> pynmea2.is_word b = true ->
        pynmea2.is_char_ci "P" a = false ->
        no_star fields = true ->
        parse_line (String "$" (String a (String b ("GGA," ++ fields))))
        = parse_line ("$GPGGA," ++ fields))
  /\ (exists f,
        parse_line "$GPGGA,123519,4807.038,N,01131.000,E,1,08,0.9,545.4,M,46.9,M,,"
        = Returns (Some f)
        /\ parse_line "$GNGGA,123519,4807.038,N,01131.000,E,1,08,0.9,545.4,M,46.9,M,,"
           = Returns (Some f)
        /\ parse_line "$GLGGA,123519,4807.038,N,01131.000,E,1,08,0.9,545.4,M,46.9,M,,"
           = Returns (Some f))
  /\ parse_line
       "$GPRMC,123519,A,4807.038,N,01131.000,E,022.4,084.4,230394,003.1,W*6A"
     = Returns None.
Proof.
  split.
  { intros lib line msg ty Hp Hty Hnot.
    rewrite (parse_nmea_parsed _ _ _ Hp). unfold extract_fix.
    rewrite Hty. cbn [getattr bind].
    destruct (mem ty GGA_TYPES) eqn:Hm; [|reflexivity].
    apply mem_In in Hm. contradiction. }
  split; [reflexivity|].
  split; [split; reflexivity|].
  split.
  { intros a b fields Ha Hb Hp Hf. unfold parse_line.
    rewrite (parse_nmea_parsed _ _ _
               (parse_GGA_any_talker a b fields Ha Hb Hp Hf)).
    change ("$GPGGA," ++ fields)
      with (String "$" (String "G" (String "P" ("GGA," ++ fields)))).
    rewrite (parse_nmea_parsed _ _ _
               (parse_GGA_any_talker "G" "P" fields
                  eq_refl eq_refl eq_refl Hf)).
    reflexivity. }
  split; [|reflexivity].
  eexists. repeat split; vm_compute; reflexivity.
Qed.

Lemma type_filter_witness :
  parse_nmea pynmea2.parse
    "$GPRMC,123519,A,4807.038,N,01131.000,E,022.4,084.4,230394,003.1,W*6A"
  = Returns None.
Proof.
  apply (proj1 type_filter pynmea2.parse _
           (pynmea2.other_talker_sentence "GP" "RMC") "RMC").
  - reflexivity.
  - reflexivity.
  - simpl. intros [H | [H | [H | []]]]; discriminate H.
Defined.

(** C4. Not every structurally valid sentence of another type is rejected:
    the parser accepts the proprietary sentences
    [$PLCJ,5F01,66FC,AA,9390,6373] and [$PUBX,00,1], the objects it returns
    have no [sentence_type], and the type test of line 37 raises
    [AttributeError] instead of giving [None]. *)
Theorem non_gga_sentence_raises :
  (exists msg,
      pynmea2.parse "$PLCJ,5F01,66FC,AA,9390,6373" = Returns msg
      /\ sentence_type msg = Missing)
  /\ parse_line "$PLCJ,5F01,66FC,AA,9390,6373" <> Returns None
  /\ (exists msg,
        pynmea2.parse "$PUBX,00,1" = Returns msg
        /\ sentence_type msg = Missing)
  /\ parse_line "$PUBX,00,1" = Raises AttributeError
  /\ parse_line "$PUBX,00,1" <> Returns None.
Proof.
  split; [eexists; split; reflexivity|].
  split; [vm_compute; discriminate|].
  split; [eexists; split; reflexivity|].
  split; [reflexivity|].
  vm_compute. discriminate.
Qed.

(** The guard of lines 49-57 on the attributes of the parsed sentence.  A
    GGA sentence one of whose [latitude], [longitude] and [altitude] reads
    as missing, [None], blank or refused by [float] is rejected, and every
    fix that is returned carries three numbers converted from values that
    were present. *)
Lemma incomplete_fix_rejected :
  (forall (lib : string -> Result Sentence) line msg ty ts,
      lib line = Returns msg ->
      sentence_type msg = Has ty -> In ty GGA_TYPES ->
      getattr_default (timestamp msg) TsNone = Returns ts ->
      unusable (getattr (latitude msg))
      \/ unusable (getattr (longitude msg))
      \/ unusable (getattr_default (altitude msg) CNone) ->
      parse_nmea lib line = Returns None)
  /\ (forall (lib : string -> Result Sentence) line t x y z,
        parse_nmea lib line = Returns (Some (t, x, y, z)) ->
        exists msg,
          lib line = Returns msg
          /\ decodes_to (getattr (latitude msg)) x
          /\ decodes_to (getattr (longitude msg)) y
          /\ decodes_to (getattr_default (altitude msg) CNone) z).
Proof.
  split.
  - intros lib line msg ty ts Hp Hty Hin Hts Hbad.
    rewrite (parse_nmea_parsed _ _ _ Hp). unfold extract_fix.
    rewrite Hty. cbn [getattr bind]. apply mem_In in Hin.
    rewrite Hin, Hts. cbn [bind].
    destruct (read_coordinates_cases msg)
      as [[e [-> He]] | [lat [lon [alt [-> [Hla [Hlo Hal]]]]]]].
    + now rewrite He.
    + assert (Hnone : lat = None \/ lon = None \/ alt = None).
      { destruct Hbad as [Hb | [Hb | Hb]];
          apply coordinate_unusable in Hb;
          destruct Hb as [Hb | [e [Hb _]]]; congruence || (
          rewrite Hb in *; first [ left; congruence
                                 | right; left; congruence
                                 | right; right; congruence ]). }
      destruct lat, lon, alt; try reflexivity.
      destruct Hnone as [H | [H | H]]; discriminate H.
  - intros lib line t x y z H.
    apply parse_nmea_Some in H. destruct H as [msg [Hp Hx]].
    apply extract_fix_Some in Hx.
    destruct Hx as [ty [ts [_ [_ [_ [_ [Hla [Hlo Hal]]]]]]]].
    exists msg. auto.
Qed.

Lemma incomplete_fix_rejected_witness :
  parse_nmea pynmea2.parse
    "$GPGGA,123519,4807.038,N,01131.000,E,1,08,0.9,,M,46.9,M,,"
  = Returns None.
Proof.
  apply (proj1 incomplete_fix_rejected pynmea2.parse _
           (pynmea2.GGA "GP"
              ["123519"; "4807.038"; "N"; "01131.000"; "E"; "1"; "08"; "0.9";
               ""; "M"; "46.9"; "M"; ""; ""])
           "GGA" (TsTime 12 35 19)).
  - reflexivity.
  - reflexivity.
  - simpl; auto.
  - reflexivity.
  - right. right. right. left. exists CNone. split; reflexivity.
Defined.

(** C6. A GGA sentence with blank latitude and longitude fields is not
    rejected.  The parser hands such a sentence over with [latitude] and
    [longitude] equal to [0.0], the test against [None] and [""] at lines
    50-51 never fires, and the sentence is returned as a fix at (0, 0). *)
Theorem blank_latitude_accepted :
  parse_line "$GPGGA,123519,,,,,0,00,,100.0,M,,M,,"
  = Returns (Some ("12:35:19", Finite 0, Finite 0, Finite (1000 # 10)))
  /\ (exists msg,
        pynmea2.parse "$GPGGA,123519,,,,,0,00,,100.0,M,,M,," = Returns msg
        /\ pynmea2.field ["123519"; ""; ""; ""; ""; "0"; "00"; ""; "100.0";
                          "M"; ""; "M"; ""; ""] 1 = ""
        /\ latitude msg = Has (CFloat (Finite 0))
        /\ longitude msg = Has (CFloat (Finite 0))
        /\ not_blank (CFloat (Finite 0)) = true).
Proof.
  split; [vm_compute; reflexivity|].
  eexists. repeat split; vm_compute; reflexivity.
Qed.

Lemma format_02d_digits (n : nat) :
  n < 100 ->
  exists a b,
    format_02d n = String a (String b EmptyString)
    /\ is_digit a = true /\ is_digit b = true.
Proof.
  intros Hn.
  assert (Hall : forallb (fun k =>
            match format_02d k with
            | String a (String b EmptyString) => is_digit a && is_digit b
            | _ => false
            end) (seq 0 100) = true) by (vm_compute; reflexivity).
  rewrite forallb_forall in Hall.
  specialize (Hall n). rewrite in_seq in Hall.
  specialize (Hall (conj (Nat.le_0_l n) Hn)).
  destruct (format_02d n) as [|a [|b [|c r]]]; try discriminate.
  apply andb_true_iff in Hall. exists a, b. tauto.
Qed.

(** Putting a readable value in place of the timestamp changes the time
    text and nothing else. *)
Lemma extract_fix_set_timestamp (msg : Sentence) (ts : TimeVal) :
  timestamp msg <> Fails ->
  extract_fix (set_timestamp (Has ts) msg)
  = match extract_fix msg with
    | Returns (Some (_, x, y, z)) => Returns (Some (time_str_of ts, x, y, z))
    | other => other
    end.
Proof.
  intros Hts. unfold extract_fix.
  change (sentence_type (set_timestamp (Has ts) msg))
    with (sentence_type msg).
  change (read_coordinates (set_timestamp (Has ts) msg))
    with (read_coordinates msg).
  change (timestamp (set_timestamp (Has ts) msg)) with (Has ts).
  destruct (sentence_type msg) as [ty| |]; cbn [getattr bind];
    try reflexivity.
  destruct (mem ty GGA_TYPES); [|reflexivity].
  destruct (timestamp msg) as [ts0| |]; [| |contradiction];
    cbn [getattr_default bind];
    (destruct (read_coordinates msg) as [[[lat lon] alt]|e];
     [destruct lat, lon, alt; reflexivity
     | destruct (is_Exception e); reflexivity]).
Qed.

(** C8, as stated, fails: a time field that is present but is no time of
    day is returned as it stands.  The sentence with the time field
    [250000] is accepted with the time ["250000"], which is neither
    [HH:MM:SS] nor empty. *)
Lemma time_field_kept_as_text :
  ~ (forall line t x y z,
        parse_line line = Returns (Some (t, x, y, z)) ->
        t = "" \/ is_hhmmss t = true).
Proof.
  intros H.
  destruct (H "$GPGGA,250000,4807.038,N,01131.000,E,1,08,0.9,545.4,M,46.9,M,,"
              "250000" (Finite (2887038 # 60000)) (Finite (691000 # 60000))
              (Finite (5454 # 10)))
    as [H1 | H1].
  - vm_compute. reflexivity.
  - discriminate H1.
  - vm_compute in H1. discriminate H1.
Qed.

(** C8, amended.  The time of a returned fix is [HH:MM:SS], two digits
    each, when the sentence's time field was decoded to a time of day; the
    empty string when the sentence has no time; and the text of the field
    as it stands, which is what [str(ts)] gives at lines 43-44, when the
    field is present but was not decoded to a time of day.  The time field
    is never a reason for rejection: a sentence accepted with one time is
    accepted, with the same coordinates, with any other or with none. *)
Theorem time_field_rendering :
  (forall (lib : string -> Result Sentence) line t x y z,
      parse_nmea lib line = Returns (Some (t, x, y, z)) ->
      exists msg,
        lib line = Returns msg
        /\ (forall h m s,
              timestamp msg = Has (TsTime h m s) ->
              t = format_02d h ++ ":" ++ format_02d m ++ ":" ++ format_02d s)
        /\ (timestamp msg = Missing \/ timestamp msg = Has TsNone -> t = "")
        /\ (forall text, timestamp msg = Has (TsOther text) -> t = text))
  /\ (forall n, n < 100 ->
        format_02d n
        = String (ascii_of_nat (48 + n / 10))
                 (String (ascii_of_nat (48 + n mod 10)) EmptyString))
  /\ (forall h m s, h < 100 -> m < 100 -> s < 100 ->
        is_hhmmss
          (format_02d h ++ ":" ++ format_02d m ++ ":" ++ format_02d s)
        = true)
  /\ (forall msg absent t x y z,
        absent = Missing \/ absent = Has TsNone ->
        extract_fix msg = Returns (Some (t, x, y, z)) ->
        extract_fix (set_timestamp absent msg)
        = Returns (Some ("", x, y, z)))
  /\ (forall msg ts t x y z,
        extract_fix msg = Returns (Some (t, x, y, z)) ->
        exists t',
          extract_fix (set_timestamp (Has ts) msg)
          = Returns (Some (t', x, y, z)))
  /\ parse_line "$GPGGA,123519,4807.038,N,01131.000,E,1,08,0.9,545.4,M,46.9,M,,"
     = Returns (Some ("12:35:19", Finite (2887038 # 60000),
                      Finite (691000 # 60000), Finite (5454 # 10)))
  /\ parse_line "$GPGGA,,4807.038,N,01131.000,E,1,08,0.9,545.4,M,46.9,M,,"
     = Returns (Some ("", Finite (2887038 # 60000),
                      Finite (691000 # 60000), Finite (5454 # 10)))
  /\ parse_line "$GPGGA,250000,4807.038,N,01131.000,E,1,08,0.9,545.4,M,46.9,M,,"
     = Returns (Some ("250000", Finite (2887038 # 60000),
                      Finite (691000 # 60000), Finite (5454 # 10))).
Proof.
  split; [|split; [|split; [|split; [|split]]]].
  - intros lib line t x y z H.
    apply parse_nmea_Some in H. destruct H as [msg [Hp Hx]].
    apply extract_fix_Some in Hx.
    destruct Hx as [ty [ts [_ [_ [Hts [-> _]]]]]].
    exists msg. split; [assumption|]. split; [|split].
    + intros h m s Hh. rewrite Hh in Hts. simpl in Hts.
      inversion Hts. reflexivity.
    + intros [Hm | Hm]; rewrite Hm in Hts; simpl in Hts;
        inversion Hts; reflexivity.
    + intros text Hh. rewrite Hh in Hts. simpl in Hts.
      inversion Hts. reflexivity.
  - exact format_02d_two_digits.
  - intros h m s Hh Hm Hs.
    destruct (format_02d_digits h Hh) as [a1 [a2 [-> [A1 A2]]]].
    destruct (format_02d_digits m Hm) as [b1 [b2 [-> [B1 B2]]]].
    destruct (format_02d_digits s Hs) as [c1 [c2 [-> [C1 C2]]]].
    cbn [append is_hhmmss]. now rewrite A1, A2, B1, B2, C1, C2.
  - intros msg absent t x y z Habs H.
    apply extract_fix_Some in H.
    destruct H as [ty [ts [Hty [Hin [_ [_ [Hla [Hlo Hal]]]]]]]].
    apply extract_fix_Some. exists ty, TsNone. simpl.
    repeat split; try assumption.
    destruct Habs as [-> | ->]; reflexivity.
  - intros msg ts t x y z H.
    assert (Hts : timestamp msg <> Fails).
    { apply extract_fix_Some in H.
      destruct H as [ty [ts0 [_ [_ [Hts _]]]]].
      intros Hf. rewrite Hf in Hts. discriminate. }
    rewrite (extract_fix_set_timestamp msg ts Hts), H. eauto.
  - repeat split; vm_compute; reflexivity.
Qed.

Lemma time_field_rendering_witness :
  exists msg,
    pynmea2.parse
      "$GPGGA,250000,4807.038,N,01131.000,E,1,08,0.9,545.4,M,46.9,M,,"
    = Returns msg
    /\ (forall h m s,
          timestamp msg = Has (TsTime h m s) ->
          "250000"
          = format_02d h ++ ":" ++ format_02d m ++ ":" ++ format_02d s)
    /\ (timestamp msg = Missing \/ timestamp msg = Has TsNone ->
        "250000" = "")
    /\ (forall text, timestamp msg = Has (TsOther text) -> "250000" = text).
Proof.
  apply (proj1 time_field_rendering pynmea2.parse
           "$GPGGA,250000,4807.038,N,01131.000,E,1,08,0.9,545.4,M,46.9,M,,"
           "250000" (Finite (2887038 # 60000)) (Finite (691000 # 60000))
           (Finite (5454 # 10))).
  vm_compute. reflexivity.
Defined.

(** ** The collection *)

Lemma append_fix_extends (f : Fix) (st : Store) :
  extends st (append_fix f st) [f].
Proof. destruct f as [[[t la] lo] al]. repeat split. Qed.

Lemma extends_refl (st : Store) : extends st st [].
Proof. unfold extends. simpl. now rewrite !app_nil_r. Qed.

(** Closes goals saying that printing leaves the four lists as they were. *)
Ltac same_lists :=
  unfold extends, loop_handler;
  repeat match goal with |- context [if ?b then _ else _] => destruct b end;
  simpl; rewrite ?app_nil_r; repeat split.

Lemma extends_trans (st1 st2 st3 : Store) (fs gs : list Fix) :
  extends st1 st2 fs -> extends st2 st3 gs -> extends st1 st3 (fs ++ gs).
Proof.
  intros [H1 [H2 [H3 H4]]] [K1 [K2 [K3 K4]]]. unfold extends.
  rewrite K1, K2, K3, K4, H1, H2, H3, H4, !map_app, <- !app_assoc.
  repeat split.
Qed.

Lemma extends_aligned (st st' : Store) (fs : list Fix) :
  aligned st -> extends st st' fs -> aligned st'.
Proof.
  intros [A1 [A2 A3]] [H1 [H2 [H3 H4]]]. unfold aligned.
  rewrite H1, H2, H3, H4, !length_app, !length_map. lia.
Qed.

Lemma extends_track (st st' : Store) (fs : list Fix) :
  aligned st -> extends st st' fs -> track st' = (track st ++ fs)%list.
Proof.
  intros [A1 [A2 A3]] [H1 [H2 [H3 H4]]]. unfold track.
  rewrite H1, H2, H3, H4. clear H1 H2 H3 H4.
  destruct st as [ts las los als pr]. simpl in *.
  revert las los als A1 A2 A3.
  induction ts as [|t ts IH]; intros [|la las] [|lo los] [|al als] A1 A2 A3;
    simpl in *; try discriminate.
  - induction fs as [|[[[t la] lo] al] fs IHf]; simpl; [reflexivity|].
    now rewrite IHf.
  - rewrite IH by congruence. reflexivity.
Qed.

Lemma extends_length (st st' : Store) (fs : list Fix) :
  extends st st' fs ->
  length (lat_data st') = length (lat_data st) + length fs.
Proof.
  intros [_ [H _]]. now rewrite H, length_app, length_map.
Qed.

Section CollectFacts.

Variable lib : string -> Result Sentence.

Lemma partial_append_lat (done : nat) (f : Fix) (st : Store) :
  length (lat_data (partial_append done f st)) <= S (length (lat_data st)).
Proof.
  destruct f as [[[t la] lo] al]. unfold partial_append. cbn [lat_data].
  destruct (2 <=? done); [rewrite length_app; cbn [length]|]; lia.
Qed.

Lemma partial_append_printed (done : nat) (f : Fix) (st : Store) :
  printed (partial_append done f st) = printed st.
Proof. destruct f as [[[t la] lo] al]. reflexivity. Qed.


(** The track length after the read loop: at the cap or where it was. *)
Lemma read_loop_bound (cap : Z) (reads : list ReadEvent) (st : Store) :
  (Z.of_nat (length (lat_data (fst (read_loop lib cap reads st))))
   <= Z.max cap (Z.of_nat (length (lat_data st))))%Z.
Proof.
  revert st. induction reads as [|ev rest IH]; intros st; simpl.
  - destruct (_ <? _)%Z; simpl; lia.
  - destruct (_ <? _)%Z eqn:Hlt; [|simpl; lia].
    apply Z.ltb_lt in Hlt.
    destruct ev as [bytes|e|bytes done].
    + destruct (String.eqb _ _); [apply IH|].
      destruct (parse_nmea lib (strip (decode_ascii_ignore bytes)))
        as [[[[[t la] lo] al]|]|e].
      * etransitivity; [apply IH|].
        simpl. rewrite length_app. simpl. lia.
      * apply IH.
      * unfold loop_handler. destruct (is_Exception e); simpl; lia.
    + unfold loop_handler. destruct (is_Exception e); simpl; lia.
    + destruct (String.eqb _ _); [simpl; lia|].
      destruct (parse_nmea lib (strip (decode_ascii_ignore bytes)))
        as [[f|]|e];
        [pose proof (partial_append_lat done f st); simpl; lia
        | simpl; lia
        | unfold loop_handler; destruct (is_Exception e); simpl; lia].
Qed.

(** At or above the cap the loop reads nothing. *)
Lemma read_loop_at_cap (cap : Z) (reads : list ReadEvent) (st : Store) :
  (cap <= Z.of_nat (length (lat_data st)))%Z ->
  read_loop lib cap reads st = (st, CapReached).
Proof.
  intros H. apply Z.ltb_ge in H. destruct reads; simpl; now rewrite H.
Qed.

(** The loop reports the cap only when the track has reached it. *)
Lemma read_loop_cap_reached (cap : Z) (reads : list ReadEvent) (st : Store) :
  snd (read_loop lib cap reads st) = CapReached ->
  (cap <= Z.of_nat (length (lat_data (fst (read_loop lib cap reads st)))))%Z.
Proof.
  revert st. induction reads as [|ev rest IH]; intros st; simpl.
  - destruct (_ <? _)%Z eqn:Hlt; simpl; [discriminate|].
    intros _. now apply Z.ltb_ge.
  - destruct (_ <? _)%Z eqn:Hlt; [|simpl; intros _; now apply Z.ltb_ge].
    destruct ev as [bytes|e|bytes done].
    + destruct (String.eqb _ _); [apply IH|].
      destruct (parse_nmea lib (strip (decode_ascii_ignore bytes)))
        as [[[[[t la] lo] al]|]|e].
      * apply IH.
      * apply IH.
      * unfold loop_handler. destruct (is_Exception e); discriminate.
    + unfold loop_handler. destruct (is_Exception e); discriminate.
    + destruct (String.eqb _ _); [discriminate|].
      destruct (parse_nmea lib (strip (decode_ascii_ignore bytes)))
        as [[f|]|e]; try discriminate.
      unfold loop_handler. destruct (is_Exception e); discriminate.
Qed.

Lemma collect_lines_extends (lines : list string) (st st' : Store) :
  collect_lines lib lines st = Returns st' ->
  extends st st' (accepted lib lines).
Proof.
  revert st. induction lines as [|line rest IH]; intros st; simpl.
  - intros H. inversion H. apply extends_refl.
  - destruct (parse_nmea lib line) as [[f|]|e]; [| |discriminate].
    + intros H. apply IH in H.
      apply (extends_trans st (append_fix f st) st' [f] _);
        [apply append_fix_extends | exact H].
    + apply IH.
Qed.

Lemma accepted_length (lines : list string) :
  length (accepted lib lines) <= length lines.
Proof.
  induction lines as [|line rest IH]; simpl; [lia|].
  destruct (parse_nmea lib line) as [[f|]|e]; simpl; lia.
Qed.


Lemma collect_from_serial_bound serial port baud cap (st : Store) :
  (Z.of_nat
     (length (lat_data (fst (collect_from_serial lib serial port baud cap st))))
   <= Z.max cap (Z.of_nat (length (lat_data st))))%Z.
Proof.
  unfold collect_from_serial. destruct serial as [|err|reads];
    try (simpl; lia).
  pose proof (read_loop_bound cap reads (print (Listening port baud cap) st))
    as H.
  destruct (read_loop lib cap reads (print (Listening port baud cap) st))
    as [st1 how].
  destruct how; exact H.
Qed.

(** The store [main] ends with holds the lists the collection left. *)
Lemma main_lists cfg serial plt_works st se fig :
  main lib cfg serial plt_works = Returns (st, se, fig) ->
  exists st1,
    extends st1 st []
    /\ ((USE_SERIAL cfg = true
         /\ st1 = fst (collect_from_serial lib serial (PORT cfg) (BAUD cfg)
                         (MAX_POINTS cfg) (clear empty_store)))
        \/ (USE_SERIAL cfg = false
            /\ collect_from_testlines lib (clear empty_store) = Returns st1)).
Proof.
  unfold main.
  assert (Hplot : forall b st2 st3 fig3,
             plot_3d b true st2 = (st3, fig3) -> extends st2 st3 []).
  { intros b st2 st3 fig3. unfold plot_3d.
    destruct (lat_data st2); [intros H; inversion H; same_lists|].
    destruct b; [|intros H; inversion H; same_lists].
    repeat match goal with
           | |- context [match ?x with Some _ => _ | None => _ end] =>
               destruct x
           end; intros H; inversion H; same_lists. }
  assert (Hrest : forall st1 se1,
             bind (rows (length (lat_data (print (Collected (length (lat_data st1))) st1)))
                        0 (print (Collected (length (lat_data st1))) st1))
               (fun r =>
                  let st2 :=
                    mkStore (time_data (print (Collected (length (lat_data st1))) st1))
                            (lat_data (print (Collected (length (lat_data st1))) st1))
                            (lon_data (print (Collected (length (lat_data st1))) st1))
                            (alt_data (print (Collected (length (lat_data st1))) st1))
                            (printed (print (Collected (length (lat_data st1))) st1) ++ r) in
                  let '(st3, fig3) := plot_3d plt_works true st2 in
                  Returns (st3, se1, fig3))
             = Returns (st, se, fig) -> extends st1 st []).
  { intros st1 se1.
    destruct (rows _ 0 _) as [r|e]; [|discriminate]. cbn [bind].
    destruct (plot_3d _ _ _) as [st3 fig3] eqn:Hp.
    intros H. inversion H. subst. apply Hplot in Hp.
    destruct Hp as [H1 [H2 [H3 H4]]]. unfold extends.
    rewrite H1, H2, H3, H4. simpl. repeat split. }
  destruct (USE_SERIAL cfg).
  - destruct (collect_from_serial _ _ _ _ _ _) as [st1 se1] eqn:Hc.
    cbn [bind]. intros H. exists st1. split; [eapply Hrest; exact H|].
    left. split; [reflexivity|]. reflexivity.
  - destruct (collect_from_testlines lib (clear empty_store)) as [st1|e];
      [|discriminate].
    cbn [bind]. intros H. exists st1. split; [eapply Hrest; exact H|].
    right. split; reflexivity.
Qed.

End CollectFacts.

(** C5, as stated, fails: a fixture session applies no cap.  With
    [MAX_POINTS = 0] it still stores the first built-in sentence. *)
Lemma fixture_session_exceeds_cap :
  ~ (forall cfg serial plt_works st se fig,
        run cfg serial plt_works = Returns (st, se, fig) ->
        (Z.of_nat (length (lat_data st)) <= MAX_POINTS cfg)%Z).
Proof.
  intros H.
  assert (Hrun : run (mkConfig false "COM5" 9600 0) NoSerial false
                 = Returns
                     (print Traceback
                        (print (Text "[!] Unexpected error in plot_3d():")
                           (print (Row 1 "12:35:19"
                                     (Finite (2887038 # 60000))
                                     (Finite (691000 # 60000))
                                     (Finite (5454 # 10)))
                              (print (Collected 1)
                                 (append_fix
                                    ("12:35:19", Finite (2887038 # 60000),
                                     Finite (691000 # 60000),
                                     Finite (5454 # 10)) empty_store)))),
                      None, PlotFailed))
    by (vm_compute; reflexivity).
  apply H in Hrun. vm_compute in Hrun. apply Hrun. reflexivity.
Qed.

(** C5, amended.  In the live variant a fix is appended only while the
    track holds fewer than [max_points] fixes: the track never grows past
    the larger of [max_points] and its length at entry, a loop entered at or
    above the cap reads nothing and changes nothing, and a loop that ends on
    the cap has reached it.  The fixture variant applies no cap: it appends
    every line that parses to a fix, at most one per line. *)
Theorem live_session_respects_cap :
  forall lib : string -> Result Sentence,
    (forall cap reads st,
        (Z.of_nat (length (lat_data (fst (read_loop lib cap reads st))))
         <= Z.max cap (Z.of_nat (length (lat_data st))))%Z)
    /\ (forall cap reads st,
          (cap <= Z.of_nat (length (lat_data st)))%Z ->
          read_loop lib cap reads st = (st, CapReached))
    /\ (forall cap reads st,
          snd (read_loop lib cap reads st) = CapReached ->
          (cap <= Z.of_nat
                    (length (lat_data (fst (read_loop lib cap reads st)))))%Z)
    /\ (forall cfg serial plt_works st se fig,
          USE_SERIAL cfg = true ->
          main lib cfg serial plt_works = Returns (st, se, fig) ->
          (Z.of_nat (length (lat_data st)) <= Z.max (MAX_POINTS cfg) 0)%Z)
    /\ (forall lines st st',
          collect_lines lib lines st = Returns st' ->
          length (lat_data st')
          = length (lat_data st) + length (accepted lib lines)
          /\ length (accepted lib lines) <= length lines).
Proof.
  intros lib.
  split; [apply read_loop_bound|].
  split; [apply read_loop_at_cap|].
  split; [apply read_loop_cap_reached|].
  split.
  - intros cfg serial plt_works st se fig Hs Hm.
    apply main_lists in Hm. destruct Hm as [st1 [He [[_ ->] | [Hf _]]]];
      [|congruence].
    apply extends_length in He. rewrite He. simpl length.
    rewrite Nat.add_0_r.
    exact (collect_from_serial_bound lib serial (PORT cfg) (BAUD cfg)
             (MAX_POINTS cfg) (clear empty_store)).
  - intros lines st st' H. split.
    + exact (extends_length _ _ _ (collect_lines_extends lib _ _ _ H)).
    + apply accepted_length.
Qed.

Lemma live_session_respects_cap_witness :
  read_loop pynmea2.parse 1
    [Line "$GPGGA,123519,4807.038,N,01131.000,E,1,08,0.9,545.4,M,46.9,M,,*47"]
    (append_fix ("12:35:18", Finite 0, Finite 0, Finite 0) empty_store)
  = (append_fix ("12:35:18", Finite 0, Finite 0, Finite 0) empty_store,
     CapReached).
Proof.
  apply (proj1 (proj2 (live_session_respects_cap pynmea2.parse))).
  simpl. lia.
Defined.

(** C7. The fixture session does not store six fixes: the checksums
    written on the second to sixth built-in sentences are not the ones
    computed over their text, the parser refuses them, and the session ends
    with the first fix alone. *)
Theorem fixture_session_collects_one_fix :
  collect_from_testlines pynmea2.parse empty_store
  = Returns (append_fix
               ("12:35:19", Finite (2887038 # 60000),
                Finite (691000 # 60000), Finite (5454 # 10)) empty_store)
  /\ Forall (fun line => pynmea2.parse line = Raises ChecksumError)
            (tl test_lines)
  /\ forall serial plt_works,
       exists st fig,
         run default_config serial plt_works = Returns (st, None, fig)
         /\ track st = [("12:35:19", Finite (2887038 # 60000),
                         Finite (691000 # 60000), Finite (5454 # 10))].
Proof.
  split; [vm_compute; reflexivity|].
  split; [repeat constructor|].
  intros serial plt_works. destruct plt_works;
    eexists; eexists; split; vm_compute; reflexivity.
Qed.

(** C9. When the serial port cannot be opened the session reports it and
    stores nothing, the script goes on to the plot, and the plot finds no
    data and says so; no exception leaves the script. *)
Theorem open_failure_ends_gracefully :
  forall (lib : string -> Result Sentence) cfg err plt_works,
    USE_SERIAL cfg = true ->
    exists st,
      main lib cfg (OpenFails err) plt_works
      = Returns (st, Some NotOpened, NothingToPlot)
      /\ track st = []
      /\ time_data st = [] /\ lat_data st = []
      /\ lon_data st = [] /\ alt_data st = []
      /\ printed st
         = [CouldNotOpen (PORT cfg) err; Collected 0;
            Text "[!] No data collected. Nothing to plot."].
Proof.
  intros lib cfg err plt_works Hs. unfold main. rewrite Hs. simpl.
  eexists. repeat split.
Qed.

Lemma open_failure_ends_gracefully_witness :
  exists st,
    main pynmea2.parse (mkConfig true "COM5" 9600 300)
         (OpenFails "could not open port 'COM5'") true
    = Returns (st, Some NotOpened, NothingToPlot)
    /\ track st = []
    /\ time_data st = [] /\ lat_data st = []
    /\ lon_data st = [] /\ alt_data st = []
    /\ printed st
       = [CouldNotOpen "COM5" "could not open port 'COM5'"; Collected 0;
          Text "[!] No data collected. Nothing to plot."].
Proof.
  apply (open_failure_ends_gracefully pynmea2.parse
           (mkConfig true "COM5" 9600 300)).
  reflexivity.
Defined.




(** ** The read loop, read by read *)

Section ReadLoopFacts.

Variable lib : string -> Result Sentence.

Lemma read_loop_nil (cap : Z) (st : Store) :
  read_loop lib cap [] st
  = if (Z.of_nat (length (lat_data st)) <? cap)%Z
    then (st, Pending) else (st, CapReached).
Proof. reflexivity. Qed.

(** A loop still waiting has room left. *)
Lemma read_loop_pending (cap : Z) (reads : list ReadEvent) (st st1 : Store) :
  read_loop lib cap reads st = (st1, Pending) ->
  (Z.of_nat (length (lat_data st1)) < cap)%Z.
Proof.
  revert st. induction reads as [|ev rest IH]; intros st; simpl.
  - destruct (_ <? _)%Z eqn:Hlt; intros H; inversion H; subst.
    now apply Z.ltb_lt.
  - destruct (_ <? _)%Z eqn:Hlt; [|discriminate].
    destruct ev as [bytes|e|bytes done].
    + destruct (String.eqb _ _); [apply IH|].
      destruct (parse_nmea lib (strip (decode_ascii_ignore bytes)))
        as [[[[[t la] lo] al]|]|e]; try apply IH.
      unfold loop_handler. destruct (is_Exception e); discriminate.
    + unfold loop_handler. destruct (is_Exception e); discriminate.
    + destruct (String.eqb _ _); [discriminate|].
      destruct (parse_nmea lib (strip (decode_ascii_ignore bytes)))
        as [[f|]|e]; try discriminate.
      unfold loop_handler. destruct (is_Exception e); discriminate.
Qed.

(** X1. Reading [r1] and then [r2] is reading [r1], and going on with [r2]
    from the store [r1] left when the loop is still waiting; once the loop
    has ended on the cap, an interrupt or a fault, later reads change
    nothing. *)
Theorem read_loop_app (cap : Z) (r1 r2 : list ReadEvent) (st : Store) :
  read_loop lib cap (r1 ++ r2) st
  = match read_loop lib cap r1 st with
    | (st1, Pending) => read_loop lib cap r2 st1
    | ended => ended
    end.
Proof.
  revert st. induction r1 as [|ev rest IH]; intros st.
  - rewrite read_loop_nil. simpl app.
    destruct (_ <? _)%Z eqn:Hlt; [reflexivity|].
    apply read_loop_at_cap. now apply Z.ltb_ge.
  - simpl. destruct (_ <? _)%Z; [|reflexivity].
    destruct ev as [bytes|e|bytes done].
    + destruct (String.eqb _ _); [apply IH|].
      destruct (parse_nmea lib (strip (decode_ascii_ignore bytes)))
        as [[[[[t la] lo] al]|]|e]; try apply IH.
      unfold loop_handler. destruct (is_Exception e); reflexivity.
    + unfold loop_handler. destruct (is_Exception e); reflexivity.
    + destruct (String.eqb _ _); [reflexivity|].
      destruct (parse_nmea lib (strip (decode_ascii_ignore bytes)))
        as [[f|]|e]; try reflexivity.
      unfold loop_handler. destruct (is_Exception e); reflexivity.
Qed.

Lemma read_loop_raise_after (cap : Z) (r1 r2 : list ReadEvent)
      (e : Exn) (st st1 : Store) :
  read_loop lib cap r1 st = (st1, Pending) ->
  read_loop lib cap (r1 ++ ReadRaises e :: r2) st = loop_handler e st1.
Proof.
  intros H. pose proof (read_loop_pending _ _ _ _ H) as Hlt.
  revert st H. induction r1 as [|ev rest IH]; intros st.
  - rewrite read_loop_nil. simpl.
    destruct (_ <? _)%Z; intros H; inversion H; subst. reflexivity.
  - simpl. destruct (_ <? _)%Z; [|discriminate].
    destruct ev as [bytes|e'|bytes done].
    + destruct (String.eqb _ _); [apply IH|].
      destruct (parse_nmea lib (strip (decode_ascii_ignore bytes)))
        as [[[[[t la] lo] al]|]|e']; try apply IH.
      unfold loop_handler. destruct (is_Exception e'); discriminate.
    + unfold loop_handler. destruct (is_Exception e'); discriminate.
    + destruct (String.eqb _ _); [discriminate|].
      destruct (parse_nmea lib (strip (decode_ascii_ignore bytes)))
        as [[f|]|e']; try discriminate.
      unfold loop_handler. destruct (is_Exception e'); discriminate.
Qed.

(** X2. A read that raises after the loop has stored some fixes ends the
    loop with exactly those fixes: the four lists are the ones held just
    before the failing read, the loop ends [Interrupted] on a
    [KeyboardInterrupt] and [Faulted] on any other exception, and the port
    is closed. *)
Theorem fault_keeps_collected_fixes
        (port : string) (baud cap : Z) (r1 r2 : list ReadEvent)
        (e : Exn) (st st1 : Store) :
  read_loop lib cap r1 (print (Listening port baud cap) st) = (st1, Pending) ->
  exists st2,
    collect_from_serial lib (Opens (r1 ++ ReadRaises e :: r2)) port baud cap st
    = (st2, Closed (if is_Exception e then Faulted else Interrupted))
    /\ lists_of st2 = lists_of st1
    /\ last (printed st2) Traceback = Text "[i] Serial closed.".
Proof.
  intros H. unfold collect_from_serial.
  rewrite (read_loop_raise_after _ _ r2 e _ _ H).
  unfold loop_handler. destruct (is_Exception e); eexists;
    (split; [reflexivity|]); split; try reflexivity;
    unfold print; cbn [printed]; apply last_last.
Qed.

(** X3. Blank lines and lines [parse_nmea] rejects leave no trace: taking
    them out of the reads changes neither the store nor the way the loop
    ends. *)
Theorem read_loop_ignores_skipped (cap : Z) (reads : list ReadEvent)
        (st : Store) :
  read_loop lib cap reads st
  = read_loop lib cap (filter (fun ev => negb (skipped lib ev)) reads) st.
Proof.
  revert st. induction reads as [|ev rest IH]; intros st; [reflexivity|].
  assert (Hskip : forall st0,
             read_loop lib cap rest st0
             = read_loop lib cap
                 (filter (fun ev => negb (skipped lib ev)) rest) st0 ->
             (if (Z.of_nat (length (lat_data st0)) <? cap)%Z
              then read_loop lib cap rest st0 else (st0, CapReached))
             = read_loop lib cap
                 (filter (fun ev => negb (skipped lib ev)) rest) st0).
  { intros st0 H. destruct (_ <? _)%Z eqn:Hlt; [exact H|].
    symmetry. apply read_loop_at_cap. now apply Z.ltb_ge. }
  destruct ev as [bytes|e|bytes done].
  - cbn [filter skipped]. unfold raw_of.
    cbn [read_loop].
    destruct (String.eqb (strip (decode_ascii_ignore bytes)) "") eqn:Hb.
    + cbn [negb]. apply Hskip, IH.
    + destruct (parse_nmea lib (strip (decode_ascii_ignore bytes)))
        as [[[[[t la] lo] al]|]|e] eqn:Hp; cbn [negb].
      * cbn [read_loop]. rewrite Hb, Hp.
        destruct (_ <? _)%Z; [|reflexivity]. apply IH.
      * apply Hskip, IH.
      * cbn [read_loop]. rewrite Hb, Hp. reflexivity.
  - reflexivity.
  - reflexivity.
Qed.

End ReadLoopFacts.

Lemma fault_keeps_collected_fixes_witness :
  exists st2,
    collect_from_serial pynmea2.parse
      (Opens ([Line "$GPGGA,123519,4807.038,N,01131.000,E,1,08,0.9,545.4,M,46.9,M,,*47"]
              ++ ReadRaises KeyboardInterrupt :: [Line "$GPGGA,1"]))
      "COM5" 9600 300 empty_store
    = (st2, Closed (if is_Exception KeyboardInterrupt
                    then Faulted else Interrupted))
    /\ lists_of st2
       = lists_of
           (print (PointLine 1 "12:35:19" (Finite (2887038 # 60000))
                     (Finite (691000 # 60000)) (Finite (5454 # 10)))
              (append_fix
                 ("12:35:19", Finite (2887038 # 60000),
                  Finite (691000 # 60000), Finite (5454 # 10))
                 (print (Listening "COM5" 9600 300) empty_store)))
    /\ last (printed st2) Traceback = Text "[i] Serial closed.".
Proof.
  apply (fault_keeps_collected_fixes pynmea2.parse "COM5" 9600 300
           [Line "$GPGGA,123519,4807.038,N,01131.000,E,1,08,0.9,545.4,M,46.9,M,,*47"]
           [Line "$GPGGA,1"] KeyboardInterrupt empty_store
           (print (PointLine 1 "12:35:19" (Finite (2887038 # 60000))
                     (Finite (691000 # 60000)) (Finite (5454 # 10)))
              (append_fix
                 ("12:35:19", Finite (2887038 # 60000),
                  Finite (691000 # 60000), Finite (5454 # 10))
                 (print (Listening "COM5" 9600 300) empty_store)))).
  vm_compute. reflexivity.
Defined.

(** ** What the parser is given *)

Lemma decode_all_ascii (b : string) :
  all_ascii (decode_ascii_ignore b) = true.
Proof.
  induction b as [|c r IH]; simpl; [reflexivity|].
  destruct (code c <? 128) eqn:Hc; [|exact IH].
  simpl. now rewrite Hc.
Qed.

Lemma lstrip_all_ascii (s : string) :
  all_ascii s = true -> all_ascii (lstrip s) = true.
Proof.
  induction s as [|c r IH]; simpl; [reflexivity|].
  intros H. apply andb_true_iff in H. destruct H as [Hc Hr].
  destruct (is_space c); [now apply IH|]. simpl. now rewrite Hc, Hr.
Qed.

Lemma rstrip_all_ascii (s : string) :
  all_ascii s = true -> all_ascii (rstrip s) = true.
Proof.
  induction s as [|c r IH]; [reflexivity|].
  intros H. cbn [all_ascii] in H. apply andb_true_iff in H.
  destruct H as [Hc Hr]. cbn [rstrip].
  destruct (all_space (String c r)); [reflexivity|].
  cbn [all_ascii]. now rewrite Hc, IH.
Qed.

Lemma lstrip_first (s : string) : first_not_space (lstrip s) = true.
Proof.
  induction s as [|c r IH]; simpl; [reflexivity|].
  destruct (is_space c) eqn:Hc; [exact IH|]. simpl. now rewrite Hc.
Qed.

Lemma rstrip_first (s : string) :
  first_not_space s = true -> first_not_space (rstrip s) = true.
Proof.
  destruct s as [|c r]; [reflexivity|]. cbn [rstrip].
  destruct (all_space (String c r)); [reflexivity|]. intros H. exact H.
Qed.

Lemma rstrip_nil_inv (s : string) :
  rstrip s = EmptyString -> all_space s = true.
Proof.
  destruct s as [|c r]; [reflexivity|]. cbn [rstrip].
  destruct (all_space (String c r)); [reflexivity | discriminate].
Qed.

Lemma rstrip_last (s : string) : last_not_space (rstrip s) = true.
Proof.
  induction s as [|c r IH]; [reflexivity|]. cbn [rstrip].
  destruct (all_space (String c r)) eqn:Ha; [reflexivity|].
  cbn [last_not_space]. destruct (rstrip r) as [|c' r'] eqn:Hr.
  - apply rstrip_nil_inv in Hr. cbn [all_space] in Ha.
    rewrite Hr, andb_true_r in Ha. now rewrite Ha.
  - exact IH.
Qed.

Lemma raw_of_clean (b : string) :
  String.eqb (raw_of b) "" = false -> clean (raw_of b) = true.
Proof.
  intros Hne. unfold clean. rewrite Hne. unfold raw_of, strip. cbn [negb andb].
  rewrite rstrip_all_ascii
    by (apply lstrip_all_ascii, decode_all_ascii).
  rewrite rstrip_first by apply lstrip_first.
  now rewrite rstrip_last.
Qed.

Lemma parse_nmea_ext (lib1 lib2 : string -> Result Sentence) (line : string) :
  lib1 line = lib2 line -> parse_nmea lib1 line = parse_nmea lib2 line.
Proof. unfold parse_nmea. now intros ->. Qed.

(** X4. The read loop calls the parser on nothing but non-empty ASCII text
    without whitespace at either end: two parsers that agree on such text
    give the same store and the same end of the loop, whatever bytes the
    port delivers. *)
Theorem parser_sees_clean_lines
        (lib1 lib2 : string -> Result Sentence)
        (cap : Z) (reads : list ReadEvent) (st : Store) :
  (forall s, clean s = true -> lib1 s = lib2 s) ->
  read_loop lib1 cap reads st = read_loop lib2 cap reads st.
Proof.
  intros Hagree. revert st.
  induction reads as [|ev rest IH]; intros st; [reflexivity|].
  cbn [read_loop]. destruct (_ <? _)%Z; [|reflexivity].
  destruct ev as [bytes|e|bytes done]; [|reflexivity|].
  - fold (raw_of bytes).
    destruct (String.eqb (raw_of bytes) "") eqn:Hb; [apply IH|].
    rewrite (parse_nmea_ext lib1 lib2 _ (Hagree _ (raw_of_clean _ Hb))).
    destruct (parse_nmea lib2 (raw_of bytes)) as [[[[[t la] lo] al]|]|e];
      [apply IH | apply IH | reflexivity].
  - fold (raw_of bytes).
    destruct (String.eqb (raw_of bytes) "") eqn:Hb; [reflexivity|].
    rewrite (parse_nmea_ext lib1 lib2 _ (Hagree _ (raw_of_clean _ Hb))).
    reflexivity.
Qed.

Lemma parser_sees_clean_lines_witness :
  read_loop pynmea2.parse 300
    [Line "  $GPGGA,123519,4807.038,N,01131.000,E,1,08,0.9,545.4,M,46.9,M,,*47  "]
    empty_store
  = read_loop
      (fun s => if clean s then pynmea2.parse s else Raises ParseError) 300
      [Line "  $GPGGA,123519,4807.038,N,01131.000,E,1,08,0.9,545.4,M,46.9,M,,*47  "]
      empty_store.
Proof.
  apply (parser_sees_clean_lines pynmea2.parse
           (fun s => if clean s then pynmea2.parse s else Raises ParseError)).
  intros s Hs. rewrite Hs. reflexivity.
Defined.

(** ** The two collection loops *)

Lemma lists_of_append (f : Fix) (st1 st2 : Store) :
  lists_of st1 = lists_of st2 ->
  lists_of (append_fix f st1) = lists_of (append_fix f st2).
Proof.
  destruct f as [[[t la] lo] al]. unfold lists_of. simpl.
  intros H. inversion H. reflexivity.
Qed.

Lemma collect_lines_full (lib : string -> Result Sentence)
      (lines : list string) (cap : Z) (st stf st' : Store) :
  lists_of st = lists_of stf ->
  collect_lines lib lines stf = Returns st' ->
  (Z.of_nat (length (lat_data st')) <= cap)%Z ->
  (cap <= Z.of_nat (length (lat_data st)))%Z ->
  lists_of st = lists_of st'.
Proof.
  intros Hl Hc Hle Hge. rewrite Hl.
  assert (Hlen : length (lat_data st) = length (lat_data stf))
    by (unfold lists_of in Hl; inversion Hl; congruence).
  apply collect_lines_extends in Hc.
  pose proof (extends_length _ _ _ Hc) as Hn.
  destruct (accepted lib lines) as [|f fs].
  - destruct Hc as [H1 [H2 [H3 H4]]]. unfold lists_of.
    rewrite H1, H2, H3, H4. simpl. now rewrite !app_nil_r.
  - simpl in Hn. lia.
Qed.

(** X5. The live loop and the fixture loop store the same fixes.  When the
    fixture loop, run on the non-blank lines the reads decode to, returns a
    track that fits under the cap, the live loop run on those reads ends
    with the same four lists. *)
Theorem live_loop_matches_fixture_loop
        (lib : string -> Result Sentence) (cap : Z) (bs : list string)
        (st stf st' : Store) :
  lists_of st = lists_of stf ->
  collect_lines lib
    (filter (fun s => negb (String.eqb s "")) (map raw_of bs)) stf
  = Returns st' ->
  (Z.of_nat (length (lat_data st')) <= cap)%Z ->
  lists_of (fst (read_loop lib cap (map Line bs) st)) = lists_of st'.
Proof.
  revert st stf. induction bs as [|b bs IH]; intros st stf Hl Hc Hle.
  - simpl in Hc. inversion Hc. subst. rewrite read_loop_nil.
    destruct (_ <? _)%Z; exact Hl.
  - cbn [map read_loop].
    destruct (_ <? _)%Z eqn:Hlt.
    + fold (raw_of b). cbn [map filter] in Hc.
      destruct (String.eqb (raw_of b) "") eqn:Hb; cbn [negb] in Hc.
      * exact (IH _ _ Hl Hc Hle).
      * cbn [collect_lines] in Hc.
        destruct (parse_nmea lib (raw_of b)) as [[[[[t la] lo] al]|]|e];
          [| exact (IH _ _ Hl Hc Hle) | discriminate].
        apply (IH _ (append_fix (t, la, lo, al) stf)); try assumption.
        exact (lists_of_append (t, la, lo, al) _ _ Hl).
    + cbn [fst]. apply Z.ltb_ge in Hlt.
      exact (collect_lines_full lib _ cap st stf st' Hl Hc Hle Hlt).
Qed.

Lemma live_loop_matches_fixture_loop_witness :
  lists_of
    (fst (read_loop pynmea2.parse 300
            (map Line
               ["";
                " $GPGGA,123519,4807.038,N,01131.000,E,1,08,0.9,545.4,M,46.9,M,,*47";
                "$GPRMC,1"])
            empty_store))
  = lists_of
      (append_fix
         ("12:35:19", Finite (2887038 # 60000), Finite (691000 # 60000),
          Finite (5454 # 10)) empty_store).
Proof.
  apply (live_loop_matches_fixture_loop pynmea2.parse 300 _ empty_store
           empty_store).
  - reflexivity.
  - vm_compute. reflexivity.
  - simpl. lia.
Defined.

(** ** Opening and closing the port *)

Lemma read_loop_never_prints_closed (lib : string -> Result Sentence)
      (cap : Z) (reads : list ReadEvent) (st : Store) :
  times_closed (fst (read_loop lib cap reads st)) = times_closed st.
Proof.
  revert st. induction reads as [|ev rest IH]; intros st; cbn [read_loop].
  - destruct (_ <? _)%Z; reflexivity.
  - destruct (_ <? _)%Z; [|reflexivity].
    assert (Hh : forall e,
               times_closed (fst (loop_handler e st)) = times_closed st).
    { intros e. unfold loop_handler, times_closed, print.
      destruct (is_Exception e); cbn [fst printed];
        rewrite ?filter_app, ?length_app; simpl; lia. }
    destruct ev as [bytes|e|bytes done]; [|apply Hh|].
    + destruct (String.eqb _ _); [apply IH|].
      destruct (parse_nmea lib (strip (decode_ascii_ignore bytes)))
        as [[[[[t la] lo] al]|]|e]; [| apply IH | apply Hh].
      rewrite IH. unfold times_closed, print, append_fix. cbn [printed].
      rewrite filter_app, length_app. simpl. lia.
    + destruct (String.eqb _ _); [apply Hh|].
      destruct (parse_nmea lib (strip (decode_ascii_ignore bytes)))
        as [[f|]|e]; [| apply Hh | apply Hh].
      unfold loop_handler, times_closed, print. cbn [is_Exception fst printed].
      rewrite partial_append_printed, filter_app, length_app. simpl. lia.
Qed.

(** X6. The port is closed exactly when it was opened and the loop has
    ended.  Without pyserial or when opening fails, nothing is read, the
    four lists are untouched and no closing is printed; once the port is
    open, every end of the loop (cap, interrupt, fault) prints the closing
    once, as the last line, and a loop still waiting has printed none. *)
Theorem port_closed_once (lib : string -> Result Sentence)
        (serial : SerialModule) (port : string) (baud cap : Z) (st : Store) :
  match serial, collect_from_serial lib serial port baud cap st with
  | Opens reads, (st', StillReading) =>
      snd (read_loop lib cap reads (print (Listening port baud cap) st))
      = Pending
      /\ times_closed st' = times_closed st
  | Opens reads, (st', Closed how) =>
      how = snd (read_loop lib cap reads (print (Listening port baud cap) st))
      /\ how <> Pending
      /\ times_closed st' = S (times_closed st)
      /\ last (printed st') Traceback = Text "[i] Serial closed."
  | Opens _, (_, NotOpened) => False
  | _, (st', se) =>
      se = NotOpened
      /\ lists_of st' = lists_of st
      /\ times_closed st' = times_closed st
  end.
Proof.
  destruct serial as [|err|reads]; cbn [collect_from_serial].
  - repeat split. unfold times_closed, print. cbn [printed].
    rewrite filter_app, length_app. simpl. lia.
  - repeat split. unfold times_closed, print. cbn [printed].
    rewrite filter_app, length_app. simpl. lia.
  - pose proof (read_loop_never_prints_closed lib cap reads
                  (print (Listening port baud cap) st)) as Hn.
    assert (H0 : times_closed (print (Listening port baud cap) st)
                 = times_closed st).
    { unfold times_closed, print. cbn [printed].
      rewrite filter_app, length_app. simpl. lia. }
    destruct (read_loop lib cap reads (print (Listening port baud cap) st))
      as [st1 how].
    cbn [fst snd] in *.
    destruct how; cbn [snd];
      try (split; [reflexivity|]; split; [discriminate|]; split;
           [ unfold times_closed, print in *; cbn [printed] in *;
             rewrite filter_app, length_app; simpl; lia
           | unfold print; cbn [printed]; apply last_last ]).
    split; [reflexivity | congruence].
Qed.

(** ** The plot *)

(** X7. [plot_3d] reads the track and never changes it.  It reports that
    there is nothing to plot exactly when [lat_data] is empty; a figure it
    draws shows the three lists as they are, from the first point to the
    last, and is saved exactly when asked; and a non-empty track whose lists
    are of one length is always drawn when matplotlib works. *)
Theorem plot_3d_outcome (plt_works save_png : bool) (st : Store) :
  lists_of (fst (plot_3d plt_works save_png st)) = lists_of st
  /\ (snd (plot_3d plt_works save_png st) = NothingToPlot
      <-> lat_data st = [])
  /\ (forall xs ys zs x0 y0 z0 x1 y1 z1 saved,
        snd (plot_3d plt_works save_png st)
        = Figure xs ys zs (x0, y0, z0) (x1, y1, z1) saved ->
        xs = lon_data st /\ ys = lat_data st /\ zs = alt_data st
        /\ saved = save_png
        /\ hd_error (lon_data st) = Some x0
        /\ hd_error (lat_data st) = Some y0
        /\ hd_error (alt_data st) = Some z0
        /\ hd_error (rev (lon_data st)) = Some x1
        /\ hd_error (rev (lat_data st)) = Some y1
        /\ hd_error (rev (alt_data st)) = Some z1)
  /\ (aligned st -> lat_data st <> [] -> plt_works = true ->
      exists start finish,
        snd (plot_3d plt_works save_png st)
        = Figure (lon_data st) (lat_data st) (alt_data st)
                 start finish save_png).
Proof.
  unfold plot_3d.
  destruct (lat_data st) as [|la las] eqn:Hla.
  - repeat split; try discriminate; try reflexivity. intros _ H. now elim H.
  - destruct plt_works.
    + destruct (hd_error (lon_data st)) as [x0|] eqn:H1;
        [|repeat split; try discriminate;
          intros [_ [Hlon _]] _ _;
          destruct (lon_data st); [rewrite Hla in Hlon|]; discriminate].
      cbn [hd_error].
      destruct (hd_error (alt_data st)) as [z0|] eqn:H3;
        [|repeat split; try discriminate;
          intros [_ [_ Halt]] _ _;
          destruct (alt_data st); [rewrite Hla in Halt|]; discriminate].
      destruct (hd_error (rev (lon_data st))) as [x1|] eqn:H4;
        [|repeat split; try discriminate;
          intros _ _ _; destruct (lon_data st) as [|lo los];
          [discriminate H1|];
          simpl in H4; destruct (rev los); discriminate H4].
      destruct (hd_error (rev (la :: las))) as [y1|] eqn:H5;
        [|exfalso; simpl in H5; destruct (rev las); discriminate H5].
      destruct (hd_error (rev (alt_data st))) as [z1|] eqn:H6;
        [|repeat split; try discriminate;
          intros _ _ _; destruct (alt_data st) as [|al als];
          [discriminate H3|];
          simpl in H6; destruct (rev als); discriminate H6].
      split; [destruct save_png; reflexivity|].
      split; [split; discriminate|].
      split.
      * intros xs ys zs x0' y0' z0' x1' y1' z1' saved H.
        cbn [snd] in H. inversion H. subst. repeat split; reflexivity.
      * intros _ _ _. eexists. eexists. reflexivity.
    + repeat split; try discriminate.
Qed.

Lemma plot_3d_outcome_witness :
  exists start finish,
    snd (plot_3d true true
           (append_fix ("12:35:19", Finite 1, Finite 2, Finite 3) empty_store))
    = Figure
        (lon_data
           (append_fix ("12:35:19", Finite 1, Finite 2, Finite 3) empty_store))
        (lat_data
           (append_fix ("12:35:19", Finite 1, Finite 2, Finite 3) empty_store))
        (alt_data
           (append_fix ("12:35:19", Finite 1, Finite 2, Finite 3) empty_store))
        start finish true.
Proof.
  apply (proj2 (proj2 (proj2
           (plot_3d_outcome true true
              (append_fix ("12:35:19", Finite 1, Finite 2, Finite 3)
                          empty_store))))).
  - repeat split.
  - simpl. discriminate.
  - reflexivity.
Defined.

(** ** The script as a whole *)

Lemma zip4_nth (ts : list string) (las los als : list float) (i : nat)
      (t : string) (la lo al : float) :
  nth_error ts i = Some t -> nth_error las i = Some la ->
  nth_error los i = Some lo -> nth_error als i = Some al ->
  nth_error (zip4 ts las los als) i = Some (t, la, lo, al).
Proof.
  revert las los als i.
  induction ts as [|t0 ts IH]; intros [|la0 las] [|lo0 los] [|al0 als] [|i];
    simpl; try discriminate.
  - intros H1 H2 H3 H4. inversion H1. inversion H2. inversion H3.
    inversion H4. reflexivity.
  - apply IH.
Qed.

Lemma skipn_nth {A} (l : list A) (i : nat) (x : A) :
  nth_error l i = Some x -> skipn i l = x :: skipn (S i) l.
Proof.
  revert i. induction l as [|y l IH]; intros [|i]; simpl; try discriminate.
  - intros H. inversion H. reflexivity.
  - intros H. rewrite (IH i H). reflexivity.
Qed.

Lemma zip4_length_le (ts : list string) (las los als : list float) :
  length (zip4 ts las los als) <= length las.
Proof.
  revert las los als.
  induction ts as [|t ts IH]; intros [|la las] [|lo los] [|al als];
    simpl; try lia.
  specialize (IH las los als). lia.
Qed.

(** The rows the script prints when the loop of lines 166-167 runs
    through: one for each index, with the elements of the four lists at
    that index. *)
Lemma rows_inv (n i : nat) (st : Store) (r : list Out) :
  rows n i st = Returns r ->
  r = rows_of i (firstn n (skipn i (track st)))
  /\ length (firstn n (skipn i (track st))) = n.
Proof.
  revert i r. induction n as [|n IH]; intros i r; cbn [rows].
  - intros H. inversion H. split; reflexivity.
  - destruct (nth_error (time_data st) i) as [t|] eqn:H1; [|discriminate].
    destruct (nth_error (lat_data st) i) as [la|] eqn:H2; [|discriminate].
    destruct (nth_error (lon_data st) i) as [lo|] eqn:H3; [|discriminate].
    destruct (nth_error (alt_data st) i) as [al|] eqn:H4; [|discriminate].
    destruct (rows n (S i) st) as [r'|e] eqn:Hr; [|discriminate].
    cbn [bind]. intros H. inversion H. subst r.
    destruct (IH _ _ Hr) as [-> Hlen].
    pose proof (zip4_nth _ _ _ _ _ _ _ _ _ H1 H2 H3 H4) as Hz.
    fold (track st) in Hz.
    rewrite (skipn_nth _ _ _ Hz). cbn [firstn rows_of length].
    split; [reflexivity | now rewrite Hlen].
Qed.

(** When the loop of lines 166-167 runs through all of [lat_data], every
    index below its length holds a whole fix. *)
Lemma rows_all (st : Store) (r : list Out) :
  rows (length (lat_data st)) 0 st = Returns r ->
  r = rows_of 0 (track st) /\ length (track st) = length (lat_data st).
Proof.
  intros H. apply rows_inv in H. cbn [skipn] in H. destruct H as [-> Hlen].
  pose proof (zip4_length_le (time_data st) (lat_data st) (lon_data st)
                (alt_data st)) as Hle.
  fold (track st) in Hle.
  rewrite firstn_all2 in Hlen by exact Hle.
  rewrite firstn_all2 by exact Hle. split; [reflexivity | exact Hlen].
Qed.

Lemma rows_print (n i : nat) (o : Out) (st : Store) :
  rows n i (print o st) = rows n i st.
Proof.
  revert i. induction n as [|n IH]; intros i; cbn [rows]; [reflexivity|].
  rewrite IH. reflexivity.
Qed.

Lemma plot_3d_lists (plt_works save_png : bool) (st : Store) :
  lists_of (fst (plot_3d plt_works save_png st)) = lists_of st.
Proof.
  unfold plot_3d. destruct (lat_data st); [reflexivity|].
  destruct plt_works; [|reflexivity].
  repeat match goal with
         | |- context [match ?x with Some _ => _ | None => _ end] =>
             destruct x
         end; try reflexivity.
  destruct save_png; reflexivity.
Qed.

Lemma plot_3d_nothing_iff (plt_works save_png : bool) (st : Store) :
  snd (plot_3d plt_works save_png st) = NothingToPlot <-> lat_data st = [].
Proof.
  unfold plot_3d. destruct (lat_data st); [split; reflexivity|].
  destruct plt_works; [|split; discriminate].
  repeat match goal with
         | |- context [match ?x with Some _ => _ | None => _ end] =>
             destruct x
         end; split; discriminate.
Qed.

Lemma plot_3d_prints (plt_works save_png : bool) (st : Store) :
  exists post,
    printed (fst (plot_3d plt_works save_png st)) = (printed st ++ post)%list.
Proof.
  unfold plot_3d. destruct (lat_data st); [eexists; reflexivity|].
  destruct plt_works;
    [|exists [Text "[!] Unexpected error in plot_3d():"; Traceback];
      simpl; now rewrite <- app_assoc].
  repeat match goal with
         | |- context [match ?x with Some _ => _ | None => _ end] =>
             destruct x
         end;
    try (exists [Text "[!] Unexpected error in plot_3d():"; Traceback];
         simpl; now rewrite <- app_assoc).
  destruct save_png; [eexists; reflexivity|].
  exists []. simpl. now rewrite app_nil_r.
Qed.

Lemma lists_of_track (st1 st2 : Store) :
  lists_of st1 = lists_of st2 -> track st1 = track st2.
Proof. unfold lists_of, track. intros H. inversion H. reflexivity. Qed.

Lemma aligned_clear : aligned (clear empty_store).
Proof. repeat split. Qed.

(** What a run of [main] that returns has gone through. *)
Lemma main_returns_inv (lib : string -> Result Sentence) (cfg : Config)
      (serial : SerialModule) (plt_works : bool)
      (st : Store) (se : option Session) (fig : Rendered) :
  main lib cfg serial plt_works = Returns (st, se, fig) ->
  exists st1 r post,
    ((USE_SERIAL cfg = true
      /\ (st1, se)
         = (fst (collect_from_serial lib serial (PORT cfg) (BAUD cfg)
                   (MAX_POINTS cfg) (clear empty_store)),
            Some (snd (collect_from_serial lib serial (PORT cfg) (BAUD cfg)
                         (MAX_POINTS cfg) (clear empty_store)))))
     \/ (USE_SERIAL cfg = false
         /\ se = None
         /\ collect_from_testlines lib (clear empty_store) = Returns st1))
    /\ rows (length (lat_data st1)) 0 st1 = Returns r
    /\ lists_of st = lists_of st1
    /\ (fig = NothingToPlot <-> lat_data st1 = [])
    /\ printed st
       = (printed st1 ++ Collected (length (lat_data st1)) :: r ++ post)%list.
Proof.
  unfold main.
  assert (Htail : forall st1 se1,
             bind (rows (length (lat_data
                                   (print (Collected (length (lat_data st1)))
                                      st1)))
                        0 (print (Collected (length (lat_data st1))) st1))
               (fun r =>
                  let st2 :=
                    mkStore
                      (time_data (print (Collected (length (lat_data st1))) st1))
                      (lat_data (print (Collected (length (lat_data st1))) st1))
                      (lon_data (print (Collected (length (lat_data st1))) st1))
                      (alt_data (print (Collected (length (lat_data st1))) st1))
                      (printed (print (Collected (length (lat_data st1))) st1)
                       ++ r) in
                  let '(st3, fig3) := plot_3d plt_works true st2 in
                  Returns (st3, se1, fig3))
             = Returns (st, se, fig) ->
             se1 = se
             /\ exists r post,
                  rows (length (lat_data st1)) 0 st1 = Returns r
                  /\ lists_of st = lists_of st1
                  /\ (fig = NothingToPlot <-> lat_data st1 = [])
                  /\ printed st
                     = (printed st1
                        ++ Collected (length (lat_data st1)) :: r ++ post)%list).
  { intros st1 se1. rewrite rows_print.
    change (lat_data (print (Collected (length (lat_data st1))) st1))
      with (lat_data st1).
    destruct (rows (length (lat_data st1)) 0 st1) as [r|e]; [|discriminate].
    cbn [bind print time_data lat_data lon_data alt_data printed].
    set (st2 := mkStore (time_data st1) (lat_data st1) (lon_data st1)
                        (alt_data st1)
                        ((printed st1 ++ [Collected (length (lat_data st1))])
                         ++ r)).
    destruct (plot_3d_prints plt_works true st2) as [post Hpost].
    pose proof (plot_3d_lists plt_works true st2) as Hl.
    pose proof (plot_3d_nothing_iff plt_works true st2) as Hn.
    destruct (plot_3d plt_works true st2) as [st3 fig3].
    cbn [fst snd] in *. intros H. inversion H. subst st3 se1 fig3.
    split; [reflexivity|]. exists r, post.
    split; [reflexivity|]. split; [exact Hl|]. split; [exact Hn|].
    rewrite Hpost. subst st2. cbn [printed].
    rewrite <- !app_assoc. reflexivity. }
  destruct (USE_SERIAL cfg).
  - destruct (collect_from_serial lib serial (PORT cfg) (BAUD cfg)
                (MAX_POINTS cfg) (clear empty_store)) as [st1 se1].
    cbn [bind fst snd]. intros H. apply Htail in H.
    destruct H as [<- [r [post H]]]. exists st1, r, post.
    split; [left; split; reflexivity | exact H].
  - destruct (collect_from_testlines lib (clear empty_store)) as [st1|e];
      [|discriminate].
    cbn [bind]. intros H. apply Htail in H.
    destruct H as [<- [r [post H]]]. exists st1, r, post.
    split; [right; repeat split | exact H].
Qed.

Lemma collect_lines_returns_iff (lib : string -> Result Sentence)
      (lines : list string) (st : Store) :
  (exists st', collect_lines lib lines st = Returns st')
  <-> forall line, In line lines -> exists r, parse_nmea lib line = Returns r.
Proof.
  revert st. induction lines as [|line rest IH]; intros st; simpl.
  - split; [intros _ l []|eauto].
  - destruct (parse_nmea lib line) as [[f|]|e] eqn:Hp.
    + rewrite IH. split.
      * intros H l [<- | Hl]; eauto.
      * intros H l Hl. apply H. now right.
    + rewrite IH. split.
      * intros H l [<- | Hl]; eauto.
      * intros H l Hl. apply H. now right.
    + split.
      * intros [st' H]. discriminate.
      * intros H. destruct (H line (or_introl eq_refl)) as [r Hr].
        rewrite Hp in Hr. discriminate.
Qed.

Lemma collect_lines_raises_iff (lib : string -> Result Sentence)
      (lines : list string) (st : Store) (e : Exn) :
  collect_lines lib lines st = Raises e
  <-> exists before line after,
        lines = (before ++ line :: after)%list
        /\ (forall l, In l before -> exists r, parse_nmea lib l = Returns r)
        /\ parse_nmea lib line = Raises e.
Proof.
  revert st. induction lines as [|line0 rest IH]; intros st; cbn [collect_lines].
  - split; [discriminate|].
    intros [b [l [a [H _]]]]. destruct b; discriminate H.
  - assert (Hpass : forall st0,
               (exists r, parse_nmea lib line0 = Returns r) ->
               (collect_lines lib rest st0 = Raises e
                <-> exists before line after,
                      (line0 :: rest) = (before ++ line :: after)%list
                      /\ (forall l, In l before ->
                                    exists r, parse_nmea lib l = Returns r)
                      /\ parse_nmea lib line = Raises e)).
    { intros st0 [r0 Hr0]. rewrite IH. split.
      - intros [b [l [a [-> [Hb Hl]]]]].
        exists (line0 :: b), l, a. split; [reflexivity|].
        split; [|exact Hl]. intros x [<- | Hx]; eauto.
      - intros [b [l [a [Heq [Hb Hl]]]]]. destruct b as [|x b].
        + simpl in Heq. inversion Heq. subst. rewrite Hr0 in Hl.
          discriminate.
        + simpl in Heq. inversion Heq. subst.
          exists b, l, a. split; [reflexivity|]. split; [|exact Hl].
          intros y Hy. apply Hb. now right. }
    destruct (parse_nmea lib line0) as [[f|]|e0] eqn:Hp.
    + apply Hpass. eauto.
    + apply Hpass. eauto.
    + split.
      * intros H. inversion H. subst e0.
        exists [], line0, rest. split; [reflexivity|].
        split; [intros l []|exact Hp].
      * intros [b [l [a [Heq [Hb Hl]]]]]. destruct b as [|x b].
        -- simpl in Heq. inversion Heq. subst. rewrite Hp in Hl.
           inversion Hl. reflexivity.
        -- simpl in Heq. inversion Heq. subst.
           destruct (Hb x (or_introl eq_refl)) as [r Hr].
           rewrite Hp in Hr. discriminate.
Qed.

(** X8. What the script prints at the end matches what it stored.  When the
    script returns, every index below the length of [lat_data] holds a
    whole fix, and the summary is that length followed by one row per such
    index, in order and numbered from 1, showing the elements of the four
    lists at the index; the plot reports nothing to plot exactly when
    [lat_data] is empty. *)
Theorem script_summary (lib : string -> Result Sentence) (cfg : Config)
        (serial : SerialModule) (plt_works : bool)
        (st : Store) (se : option Session) (fig : Rendered) :
  main lib cfg serial plt_works = Returns (st, se, fig) ->
  length (track st) = length (lat_data st)
  /\ (fig = NothingToPlot <-> lat_data st = [])
  /\ exists pre post,
       printed st
       = (pre ++ Collected (length (lat_data st)) :: rows_of 0 (track st)
          ++ post)%list.
Proof.
  intros Hm. apply main_returns_inv in Hm.
  destruct Hm as [st1 [r [post [_ [Hr [Hl [Hf Hp]]]]]]].
  apply rows_all in Hr. destruct Hr as [-> Hlen].
  assert (Hlat : lat_data st = lat_data st1)
    by (unfold lists_of in Hl; inversion Hl; reflexivity).
  rewrite (lists_of_track _ _ Hl), Hlat.
  split; [exact Hlen|]. split; [exact Hf|].
  exists (printed st1), post. exact Hp.
Qed.

Lemma script_summary_witness :
  exists st se fig,
    main pynmea2.parse (mkConfig true "COM5" 9600 300)
      (Opens
         [Line "$GPGGA,123519,4807.038,N,01131.000,E,1,08,0.9,545.4,M,46.9,M,,*47";
          Line "$GPGGA,123520,4807.123,N,01131.321,E,1,08,0.9,550.0,M,46.9,M,,";
          ReadRaises KeyboardInterrupt])
      true
    = Returns (st, se, fig)
    /\ length (track st) = 2
    /\ length (track st) = length (lat_data st)
    /\ (fig = NothingToPlot <-> lat_data st = [])
    /\ exists pre post,
         printed st
         = (pre ++ Collected (length (lat_data st)) :: rows_of 0 (track st)
            ++ post)%list.
Proof.
  eexists. eexists. eexists.
  split; [vm_compute; reflexivity|].
  split; [reflexivity|].
  eapply (script_summary pynmea2.parse (mkConfig true "COM5" 9600 300)
            (Opens
               [Line "$GPGGA,123519,4807.038,N,01131.000,E,1,08,0.9,545.4,M,46.9,M,,*47";
                Line "$GPGGA,123520,4807.123,N,01131.321,E,1,08,0.9,550.0,M,46.9,M,,";
                ReadRaises KeyboardInterrupt])
            true).
  vm_compute. reflexivity.
Defined.

(** X9. The fixture loop has no handler.  It returns exactly when
    [parse_nmea] returns on every line; otherwise it ends with the exception
    of the first line on which [parse_nmea] raises, and the lines after
    that one are not looked at. *)
Theorem fixture_loop_lets_exceptions_through
        (lib : string -> Result Sentence) (lines : list string) (st : Store) :
  ((exists st', collect_lines lib lines st = Returns st')
   <-> forall line, In line lines ->
                    exists r, parse_nmea lib line = Returns r)
  /\ forall e,
       collect_lines lib lines st = Raises e
       <-> exists before line after,
             lines = (before ++ line :: after)%list
             /\ (forall l, In l before ->
                           exists r, parse_nmea lib l = Returns r)
             /\ parse_nmea lib line = Raises e.
Proof.
  split.
  - apply collect_lines_returns_iff.
  - intros e. apply collect_lines_raises_iff.
Qed.

(** X10. A fixture run of the script starts from empty lists and ends with
    the fixes [parse_nmea] returned for the built-in lines, in the order of
    the lines, and nothing else. *)
Theorem fixture_script_track (lib : string -> Result Sentence) (cfg : Config)
        (serial : SerialModule) (plt_works : bool)
        (st : Store) (se : option Session) (fig : Rendered) :
  USE_SERIAL cfg = false ->
  main lib cfg serial plt_works = Returns (st, se, fig) ->
  track st = accepted lib test_lines /\ se = None.
Proof.
  intros Hu Hm. apply main_returns_inv in Hm.
  destruct Hm as [st1 [r [post [[[Hu' _] | [_ [-> Hc]]] [_ [Hl _]]]]]];
    [congruence|].
  split; [|reflexivity].
  rewrite (lists_of_track _ _ Hl).
  exact (extends_track _ _ _ aligned_clear
           (collect_lines_extends lib _ _ _ Hc)).
Qed.

Lemma fixture_script_track_witness :
  track
    (print Traceback
       (print (Text "[!] Unexpected error in plot_3d():")
          (print (Row 1 "12:35:19" (Finite (2887038 # 60000))
                    (Finite (691000 # 60000)) (Finite (5454 # 10)))
             (print (Collected 1)
                (append_fix
                   ("12:35:19", Finite (2887038 # 60000),
                    Finite (691000 # 60000), Finite (5454 # 10))
                   empty_store)))))
  = accepted pynmea2.parse test_lines
  /\ @None Session = None.
Proof.
  apply (fixture_script_track pynmea2.parse default_config NoSerial false
           _ None PlotFailed).
  - reflexivity.
  - vm_compute. reflexivity.
Defined.

(** ** More on the parser *)

(** X11. [parse_nmea] lets an exception through in three cases only: the
    structural parser raised something that is not an [Exception]; the
    parsed object has no readable [sentence_type] (line 37); or the object
    is of a GGA type and reading its [timestamp] raises something other
    than [AttributeError] (line 39).  Every failure while reading or
    converting the coordinates is turned into [None]. *)
Theorem parse_nmea_raises_iff (lib : string -> Result Sentence)
        (line : string) (e : Exn) :
  parse_nmea lib line = Raises e
  <-> (lib line = Raises e /\ is_Exception e = false)
      \/ exists msg,
           lib line = Returns msg
           /\ ((sentence_type msg = Missing /\ e = AttributeError)
               \/ (sentence_type msg = Fails /\ e = OtherException)
               \/ (exists ty,
                     sentence_type msg = Has ty /\ In ty GGA_TYPES
                     /\ timestamp msg = Fails /\ e = OtherException)).
Proof.
  unfold parse_nmea. destruct (lib line) as [msg|e0]; split.
  - intros H. right. exists msg. split; [reflexivity|].
    unfold extract_fix in H.
    destruct (sentence_type msg) as [ty| |] eqn:Hty; cbn [getattr bind] in H.
    + right. right. exists ty.
      destruct (mem ty GGA_TYPES) eqn:Hm; [|discriminate].
      apply mem_In in Hm.
      destruct (timestamp msg) as [ts| |] eqn:Hts;
        cbn [getattr_default bind] in H.
      * exfalso.
        destruct (read_coordinates_cases msg)
          as [[e1 [Hr He1]] | [lat [lon [alt [Hr _]]]]]; rewrite Hr in H.
        -- rewrite He1 in H. discriminate.
        -- destruct lat, lon, alt; discriminate.
      * exfalso.
        destruct (read_coordinates_cases msg)
          as [[e1 [Hr He1]] | [lat [lon [alt [Hr _]]]]]; rewrite Hr in H.
        -- rewrite He1 in H. discriminate.
        -- destruct lat, lon, alt; discriminate.
      * inversion H. auto.
    + left. inversion H. auto.
    + right. left. inversion H. auto.
  - intros [[H _] | [msg' [Hm H]]]; [discriminate|].
    inversion Hm. subst msg'. unfold extract_fix.
    destruct H as [[Hty ->] | [[Hty ->] | [ty [Hty [Hin [Hts ->]]]]]];
      rewrite Hty; cbn [getattr bind]; try reflexivity.
    apply mem_In in Hin. rewrite Hin, Hts. reflexivity.
  - destruct (is_Exception e0) eqn:He0; [discriminate|].
    intros H. inversion H. subst. left. auto.
  - intros [[H He] | [msg [Hm _]]]; [|discriminate].
    inversion H. subst. now rewrite He.
Qed.

(** X12. The time field takes no part in accepting a sentence.  Putting
    any readable value, or none, in place of a readable [timestamp] leaves
    an accepted sentence accepted with the same latitude, longitude and
    altitude, a rejected one rejected, and one on which [parse_nmea] raises
    raising the same exception. *)
Theorem timestamp_never_rejects (msg : Sentence) (ts : Attr TimeVal) :
  timestamp msg <> Fails -> ts <> Fails ->
  (forall x y z,
      (exists t, extract_fix (set_timestamp ts msg)
                 = Returns (Some (t, x, y, z)))
      <-> (exists t, extract_fix msg = Returns (Some (t, x, y, z))))
  /\ (extract_fix (set_timestamp ts msg) = Returns None
      <-> extract_fix msg = Returns None)
  /\ (forall e,
        extract_fix (set_timestamp ts msg) = Raises e
        <-> extract_fix msg = Raises e).
Proof.
  intros Hm Hts.
  assert (Heq : exists tv,
             extract_fix (set_timestamp ts msg)
             = match extract_fix msg with
               | Returns (Some (_, x, y, z)) =>
                   Returns (Some (time_str_of tv, x, y, z))
               | other => other
               end).
  { destruct ts as [tv| |]; [| |contradiction].
    - exists tv. exact (extract_fix_set_timestamp msg tv Hm).
    - exists TsNone. rewrite <- (extract_fix_set_timestamp msg TsNone Hm).
      reflexivity. }
  destruct Heq as [tv ->].
  destruct (extract_fix msg) as [[[[[t0 x0] y0] z0]|]|e0].
  - split; [|split].
    + intros x y z. split; intros [t H]; inversion H; eauto.
    + split; discriminate.
    + intros e. split; discriminate.
  - split; [|split].
    + intros x y z. split; intros [t H]; discriminate.
    + split; reflexivity.
    + intros e. split; discriminate.
  - split; [|split].
    + intros x y z. split; intros [t H]; discriminate.
    + split; discriminate.
    + intros e. split; intros H; exact H.
Qed.

Lemma timestamp_never_rejects_witness :
  (forall x y z,
      (exists t,
          extract_fix
            (set_timestamp (Has (TsOther "noon"))
               (pynmea2.GGA "GP"
                  ["123519"; "4807.038"; "N"; "01131.000"; "E"; "1"; "08";
                   "0.9"; "545.4"; "M"; "46.9"; "M"; ""; ""]))
          = Returns (Some (t, x, y, z)))
      <-> (exists t,
              extract_fix
                (pynmea2.GGA "GP"
                   ["123519"; "4807.038"; "N"; "01131.000"; "E"; "1"; "08";
                    "0.9"; "545.4"; "M"; "46.9"; "M"; ""; ""])
              = Returns (Some (t, x, y, z))))
  /\ (extract_fix
        (set_timestamp (Has (TsOther "noon"))
           (pynmea2.GGA "GP"
              ["123519"; "4807.038"; "N"; "01131.000"; "E"; "1"; "08";
               "0.9"; "545.4"; "M"; "46.9"; "M"; ""; ""]))
      = Returns None
      <-> extract_fix
            (pynmea2.GGA "GP"
               ["123519"; "4807.038"; "N"; "01131.000"; "E"; "1"; "08";
                "0.9"; "545.4"; "M"; "46.9"; "M"; ""; ""])
          = Returns None)
  /\ (forall e,
        extract_fix
          (set_timestamp (Has (TsOther "noon"))
             (pynmea2.GGA "GP"
                ["123519"; "4807.038"; "N"; "01131.000"; "E"; "1"; "08";
                 "0.9"; "545.4"; "M"; "46.9"; "M"; ""; ""]))
        = Raises e
        <-> extract_fix
              (pynmea2.GGA "GP"
                 ["123519"; "4807.038"; "N"; "01131.000"; "E"; "1"; "08";
                  "0.9"; "545.4"; "M"; "46.9"; "M"; ""; ""])
            = Raises e).
Proof.
  apply (timestamp_never_rejects
           (pynmea2.GGA "GP"
              ["123519"; "4807.038"; "N"; "01131.000"; "E"; "1"; "08"; "0.9";
               "545.4"; "M"; "46.9"; "M"; ""; ""])
           (Has (TsOther "noon"))).
  - simpl. discriminate.
  - discriminate.
Defined.

(** ** Running the fixture loop again *)

(** X13. The fixture loop adds to whatever the lists hold.  Run a second
    time without clearing, it returns again and the fixes are stored twice;
    run after [clear], as the script does at line 157, it leaves the fixes
    once. *)
Theorem rerun_without_clear_duplicates
        (lib : string -> Result Sentence) (lines : list string)
        (st st1 : Store) :
  aligned st ->
  collect_lines lib lines st = Returns st1 ->
  (exists st2,
      collect_lines lib lines st1 = Returns st2
      /\ track st2
         = (track st ++ accepted lib lines ++ accepted lib lines)%list)
  /\ (exists st3,
        collect_lines lib lines (clear st1) = Returns st3
        /\ track st3 = accepted lib lines).
Proof.
  intros Ha Hc.
  assert (Hall : forall line, In line lines ->
                              exists r, parse_nmea lib line = Returns r)
    by (apply (collect_lines_returns_iff lib lines st); eauto).
  pose proof (collect_lines_extends lib _ _ _ Hc) as He.
  split.
  - destruct (proj2 (collect_lines_returns_iff lib lines st1) Hall)
      as [st2 H2].
    exists st2. split; [exact H2|].
    apply collect_lines_extends in H2.
    rewrite (extends_track _ _ _ (extends_aligned _ _ _ Ha He) H2).
    rewrite (extends_track _ _ _ Ha He). now rewrite <- app_assoc.
  - destruct (proj2 (collect_lines_returns_iff lib lines (clear st1)) Hall)
      as [st3 H3].
    exists st3. split; [exact H3|].
    apply collect_lines_extends in H3.
    assert (Hcl : aligned (clear st1)) by (repeat split).
    exact (extends_track _ _ _ Hcl H3).
Qed.

Lemma rerun_without_clear_duplicates_witness :
  (exists st2,
      collect_lines pynmea2.parse test_lines
        (append_fix
           ("12:35:19", Finite (2887038 # 60000), Finite (691000 # 60000),
            Finite (5454 # 10)) empty_store)
      = Returns st2
      /\ track st2
         = (track empty_store ++ accepted pynmea2.parse test_lines
            ++ accepted pynmea2.parse test_lines)%list)
  /\ (exists st3,
        collect_lines pynmea2.parse test_lines
          (clear
             (append_fix
                ("12:35:19", Finite (2887038 # 60000),
                 Finite (691000 # 60000), Finite (5454 # 10)) empty_store))
        = Returns st3
        /\ track st3 = accepted pynmea2.parse test_lines).
Proof.
  apply (rerun_without_clear_duplicates pynmea2.parse test_lines empty_store).
  - repeat split.
  - vm_compute. reflexivity.
Defined.
